(** * Content-addressing relay: identifiers, the JSON-backed content store
    and the ingest / resolve flows of [bot.py], embedded in Rocq.

    Definitions:
    - [Ident]  : [generate_unique_id] (with [secrets.token_urlsafe]) and
                 [is_valid_content_id] (the regular expression, matched the
                 way [re.match] matches it);
    - [Py]     : the Python values, exceptions and the file system the
                 store talks to, with a state-and-exception monad;
    - [Store]  : the class [ContentStore];
    - [Bot]    : the two handlers and their store-facing parts;
    - [Inv]    : the persisted mapping, its invariant, reachable states;
    - [Sample] : concrete machines and inputs.
    Properties: [IdentFacts], [StoreFacts], [BotFacts]. *)

From stdpp Require Import gmap strings list fin_maps.
From Stdlib Require Import ZArith NArith Ascii String.
From Stdlib.Strings Require Import Byte.

Set Warnings "-register-all".
#[local] Open Scope string_scope.

(* ===================================================================== *)
(** ** Identifiers                                                        *)
(* ===================================================================== *)

Module Ident.

(** A Python [str] is kept as a Rocq [string]; every character the code
    looks at is ASCII, anything else falls outside the character class. *)

Definition newline : ascii := "010"%char.
Definition pad : ascii := "="%char.

(** The character class [[A-Za-z0-9_-]] of the regular expression. *)
Definition in_class (c : ascii) : bool :=
  let n := N_of_ascii c in
  ((65 <=? n) && (n <=? 90) || (97 <=? n) && (n <=? 122)
   || (48 <=? n) && (n <=? 57) || (n =? 95) || (n =? 45))%N.

(** [$] without [re.MULTILINE]: the end of the string, or the position
    just before a newline that is the last character of the string. *)
Definition at_dollar (rest : string) : bool :=
  match rest with
  | EmptyString => true
  | String c EmptyString => Ascii.eqb c newline
  | _ => false
  end.

(** [[A-Za-z0-9_-]{8,}$] from the current position, [n] characters of the
    repetition already consumed: the repetition is greedy, and gives
    characters back one at a time when what follows does not match. *)
Fixpoint rep_then_dollar (n : nat) (s : string) : bool :=
  match s with
  | String c s' =>
      if in_class c
      then rep_then_dollar (S n) s' || (8 <=? n)%nat && at_dollar s
      else (8 <=? n)%nat && at_dollar s
  | EmptyString => (8 <=? n)%nat && at_dollar s
  end.

(** [bool(re.match(r'^[A-Za-z0-9_-]{8,}$', content_id))]: [re.match]
    anchors at position 0, where [^] holds. *)
Definition is_valid_content_id (content_id : string) : bool :=
  rep_then_dollar 0 content_id.

(** The identifier grammar in the words of the specification: at least 8
    characters, all of them from [[A-Za-z0-9_-]]. *)
Definition grammar (s : string) : bool :=
  (8 <=? String.length s)%nat && forallb in_class (list_ascii_of_string s).

(** *** [secrets.token_urlsafe] *)

(** [os.urandom(n)]: the next [n] bytes of the system's entropy, given as
    the sequence [src]. *)
Definition token_bytes (src : nat -> byte) (nbytes : nat) : list byte :=
  List.map src (seq 0 nbytes).

Definition b64_table : string :=
  "ABCDEFGHIJKLMNOPQRSTUVWXYZabcdefghijklmnopqrstuvwxyz0123456789+/".

(** One base64 digit: the table entry of the low six bits. *)
Definition b64_digit (i : N) : ascii :=
  match String.get (N.to_nat (N.land i 63)) b64_table with
  | Some c => c
  | None => pad
  end.

(** [base64.b64encode]: 24-bit groups, four digits each, a short last
    group padded with [=]. *)
Fixpoint b64encode (data : list byte) : list ascii :=
  match data with
  | [] => []
  | [a] =>
      let n := N.shiftl (Byte.to_N a) 16 in
      [b64_digit (N.shiftr n 18); b64_digit (N.shiftr n 12); pad; pad]
  | [a; b] =>
      let n := N.lor (N.shiftl (Byte.to_N a) 16) (N.shiftl (Byte.to_N b) 8) in
      [b64_digit (N.shiftr n 18); b64_digit (N.shiftr n 12);
       b64_digit (N.shiftr n 6); pad]
  | a :: b :: c :: rest =>
      let n := N.lor (N.lor (N.shiftl (Byte.to_N a) 16)
                            (N.shiftl (Byte.to_N b) 8)) (Byte.to_N c) in
      b64_digit (N.shiftr n 18) :: b64_digit (N.shiftr n 12)
        :: b64_digit (N.shiftr n 6) :: b64_digit n :: b64encode rest
  end.

(** [bytes.maketrans(b'+/', b'-_')]. *)
Definition urlsafe_translate (c : ascii) : ascii :=
  if Ascii.eqb c "+"%char then "-"%char
  else if Ascii.eqb c "/"%char then "_"%char
  else c.

Definition urlsafe_b64encode (data : list byte) : list ascii :=
  List.map urlsafe_translate (b64encode data).

Definition is_nil {A} (l : list A) : bool :=
  match l with [] => true | _ => false end.

(** [bytes.rstrip(c)]: drop the trailing run of [c]. *)
Definition rstrip (c : ascii) (l : list ascii) : list ascii :=
  fold_right (fun x acc => if is_nil acc && Ascii.eqb x c then [] else x :: acc)
             [] l.

(** [base64.urlsafe_b64encode(tok).rstrip(b'=').decode('ascii')]. *)
Definition token_urlsafe (src : nat -> byte) (nbytes : nat) : string :=
  string_of_list_ascii (rstrip pad (urlsafe_b64encode (token_bytes src nbytes))).

(** [secrets.token_urlsafe(8)]. *)
Definition generate_unique_id (src : nat -> byte) : string :=
  token_urlsafe src 8.

End Ident.

(* ===================================================================== *)
(** ** Python values, exceptions and the file system                      *)
(* ===================================================================== *)

Module Py.

(** What [json.load] can return. A [dict] is a finite map on its keys (the
    code never depends on the order of the entries); a [float] is kept as
    its literal. *)
Inductive json : Type :=
| JNull
| JBool (b : bool)
| JInt (z : Z)
| JFloat (lit : string)
| JStr (s : string)
| JList (l : list json)
| JObj (m : gmap string json).

(** The exceptions that the store can meet. [FileNotFoundError] and
    [PermissionError] are subclasses of [OSError] (alias [IOError]);
    [OSError] itself stands for a plain instance, as raised when the device
    has no space left. [JSONDecodeError] and [UnicodeDecodeError] are two
    different subclasses of [ValueError]; [ValueError] itself stands for a
    plain instance. *)
Inductive exn : Type :=
| FileNotFoundError
| PermissionError
| OSError
| JSONDecodeError
| UnicodeDecodeError
| ValueError
| RecursionError
| TypeError
| KeyError
| ContentNotFoundError
| StorageError.

(** [isinstance(e, IOError)]. *)
Definition is_IOError (e : exn) : bool :=
  match e with
  | FileNotFoundError | PermissionError | OSError => true
  | _ => false
  end.

(** Why [json.load] fails on a file other than by [JSONDecodeError]: the
    bytes are not text in the encoding of [open(path, 'r')]; the text has
    an integer literal beyond the interpreter's limit for conversion; the
    text is nested deeper than the interpreter's recursion limit. *)
Inductive load_failure : Type :=
| NotText
| HugeInteger
| TooDeep.

(** The text of a file, up to what [json.load] makes of it:
    - [Doc v] is a text that parses to [v] (as [json.dump v] writes it);
    - [Junk raw] is the text [raw], which decodes and which [json.load]
      rejects with [JSONDecodeError]; the empty file is [Junk ""];
    - [Unloadable why raw] are the bytes [raw], on which [json.load] fails
      for the reason [why], with another exception;
    - [Torn c] is a proper prefix of the text [c], as a write that the
      device refused leaves it; how long the prefix is, is not determined,
      and it stands for a prefix that [json.load] rejects with
      [JSONDecodeError]. Every proper prefix of the text of a JSON object
      is one, and a JSON object is all that the program writes into a file
      that it loads. *)
Inductive content : Type :=
| Doc (v : json)
| Junk (raw : string)
| Unloadable (why : load_failure) (raw : string)
| Torn (intended : content).

Definition empty_text : content := Junk "".

Definition is_empty_text (c : content) : bool :=
  match c with
  | Junk EmptyString => true
  | _ => false
  end.

Record file : Type := File {
  readable : bool;
  writable : bool;
  body : content
}.

Definition set_body (c : content) (f : file) : file :=
  {| readable := readable f; writable := writable f; body := c |}.

Definition set_mode (src f : file) : file :=
  {| readable := readable src; writable := writable src; body := body f |}.

(** Every [open], in the order the program makes them. *)
Inductive event : Type :=
| OpenRead (path : string)
| OpenWrite (path : string).

(** The directory of the files: it takes new files, or refuses them
    ([PermissionError]), or is not there ([FileNotFoundError]). *)
Inductive directory : Type :=
| DirWritable
| DirReadOnly
| DirMissing.

(** [logging]: the levels, and the records the program writes, one
    constructor for each call of [logger] in the parts modelled (the text
    of the record is determined by the constructor and its arguments). *)
Inductive level : Type :=
| INFO
| WARNING
| ERROR
| CRITICAL.

Inductive message : Type :=
| CreatedNewStorageFile (path : string)
| CorruptedJsonFile
| SavedContent (content_id : string)
| FailedToSaveContent (content_id : string) (e : exn)
| StorageFileNotFound
| CorruptedStorageFile
| ErrorInPrivateGroupHandler (e : exn)
| ContentNotFound (content_id : string)
| ErrorInStartHandler (e : exn).

(** The file that [logging.FileHandler('bot_errors.log')] keeps open from
    the start of the program. It is written through that handler only, and
    is kept apart from the files that the program opens by path. *)
Definition log_path : string := "bot_errors.log".

(** The part of the machine the store sees: the files by path (the log
    file apart), the state of their directory, whether the device still
    takes data, the opens made so far, and the records logged so far. *)
Record world : Type := World {
  files : gmap string file;
  dir : directory;
  disk_full : bool;
  trace : list event;
  log : list (level * message)
}.

(** [open(path, 'w')] of a missing file would create it. *)
Definition can_create (w : world) : bool :=
  match dir w with
  | DirWritable => true
  | _ => false
  end.

Definition set_files (fs : gmap string file) (w : world) : world :=
  {| files := fs; dir := dir w; disk_full := disk_full w;
     trace := trace w; log := log w |}.

Definition add_event (e : event) (w : world) : world :=
  {| files := files w; dir := dir w; disk_full := disk_full w;
     trace := trace w ++ [e]; log := log w |}.

Definition add_log (r : level * message) (w : world) : world :=
  {| files := files w; dir := dir w; disk_full := disk_full w;
     trace := trace w; log := log w ++ [r] |}.

(** *** Computations: state passing with exceptions *)

Inductive outcome (A : Type) : Type :=
| Return (a : A)
| Raise (e : exn).
Arguments Return {A} a.
Arguments Raise {A} e.

Definition M (A : Type) : Type := world -> outcome A * world.

Definition ret {A} (a : A) : M A := fun w => (Return a, w).

Definition raise {A} (e : exn) : M A := fun w => (Raise e, w).

Definition bind {A B} (m : M A) (k : A -> M B) : M B :=
  fun w =>
    match m w with
    | (Return a, w') => k a w'
    | (Raise e, w') => (Raise e, w')
    end.

(** [try: body / except ...: handler]; [handler e = None] when no clause
    matches [e], which then goes on to the caller. An exception raised by a
    handler is not caught by the same [try]. *)
Definition try_except {A} (body : M A) (handler : exn -> option (M A)) : M A :=
  fun w =>
    match body w with
    | (Return a, w') => (Return a, w')
    | (Raise e, w') =>
        match handler e with
        | Some h => h w'
        | None => (Raise e, w')
        end
    end.

Declare Scope py_scope.
Delimit Scope py_scope with py.
Notation "x <- m ;; k" := (bind m (fun x => k))
  (at level 100, m at next level, right associativity) : py_scope.
Notation "m ;; k" := (bind m (fun _ => k))
  (at level 100, right associativity) : py_scope.
#[local] Open Scope py_scope.

(** [logger.info(...)], [logger.error(...)] and the like: the record is
    appended to the log. *)
Definition logger (lv : level) (m : message) : M unit :=
  fun w => (Return tt, add_log (lv, m) w).

(** *** Files *)

(** [open(path, 'r')]: the text of the file. *)
Definition open_read (path : string) : M content :=
  fun w =>
    let w := add_event (OpenRead path) w in
    match files w !! path with
    | None => (Raise FileNotFoundError, w)
    | Some f =>
        if readable f then (Return (body f), w)
        else (Raise PermissionError, w)
    end.

(** [open(path, 'w')]: the file is created if it is missing and cut to
    length zero if it is there; the handle is the path. *)
Definition open_write (path : string) : M string :=
  fun w =>
    let w := add_event (OpenWrite path) w in
    match files w !! path with
    | None =>
        match dir w with
        | DirWritable =>
            (Return path,
             set_files (<[path := File true true empty_text]> (files w)) w)
        | DirReadOnly => (Raise PermissionError, w)
        | DirMissing => (Raise FileNotFoundError, w)
        end
    | Some f =>
        if writable f
        then (Return path, set_files (<[path := set_body empty_text f]> (files w)) w)
        else (Raise PermissionError, w)
    end.

(** Writing the text [c] through an open handle and closing it. On a
    device that runs out of space only a proper prefix of a non-empty text
    arrives (possibly nothing of it), and the write, or the flush when the
    file is closed, raises [OSError]. Writing the empty text writes
    nothing and so succeeds; a torn text counts as non-empty. *)
Definition write_text (c : content) (h : string) : M unit :=
  fun w =>
    if disk_full w && negb (is_empty_text c)
    then (Raise OSError, set_files (alter (set_body (Torn c)) h (files w)) w)
    else (Return tt, set_files (alter (set_body c) h (files w)) w).

Definition load_exn (why : load_failure) : exn :=
  match why with
  | NotText => UnicodeDecodeError
  | HugeInteger => ValueError
  | TooDeep => RecursionError
  end.

(** What [json.load] makes of a text. *)
Definition loads (c : content) : outcome json :=
  match c with
  | Doc v => Return v
  | Junk _ => Raise JSONDecodeError
  | Unloadable why _ => Raise (load_exn why)
  | Torn _ => Raise JSONDecodeError
  end.

(** [json.load(f)]. *)
Definition json_load (c : content) : M json :=
  fun w => (loads c, w).

(** [json.dump(v, f)] inside [with open(..., 'w') as f]. The value is
    taken to be within the interpreter's limits (integers within the limit
    for conversion to text, as the loaded ones and the identifiers of the
    messaging platform are; nesting within the recursion limit), so that
    the encoder itself does not fail and only the device can. *)
Definition json_dump (v : json) (h : string) : M unit :=
  write_text (Doc v) h.

(** [shutil.copy(src, dst)]: the data, then the permission bits. *)
Definition shutil_copy (src dst : string) : M unit :=
  c <- open_read src ;;
  h <- open_write dst ;;
  write_text c h ;;
  fun w =>
    match files w !! src with
    | Some f => (Return tt, set_files (alter (set_mode f) dst (files w)) w)
    | None => (Raise FileNotFoundError, w)
    end.

(** *** Operations on values *)

Fixpoint is_prefix (p s : string) : bool :=
  match p, s with
  | EmptyString, _ => true
  | String a p', String b s' => Ascii.eqb a b && is_prefix p' s'
  | String _ _, EmptyString => false
  end.

Fixpoint is_substring (p s : string) : bool :=
  is_prefix p s ||
  match s with
  | EmptyString => false
  | String _ s' => is_substring p s'
  end.

Definition is_str (k : string) (v : json) : bool :=
  match v with
  | JStr s => String.eqb s k
  | _ => false
  end.

(** [k in data] for a string [k]. *)
Definition contains (data : json) (k : string) : M bool :=
  match data with
  | JObj m => ret (bool_decide (is_Some (m !! k)))
  | JList l => ret (existsb (is_str k) l)
  | JStr s => ret (is_substring k s)
  | _ => raise TypeError
  end.

(** [data[k]] for a string [k]. *)
Definition getitem (data : json) (k : string) : M json :=
  match data with
  | JObj m =>
      match m !! k with
      | Some v => ret v
      | None => raise KeyError
      end
  | _ => raise TypeError
  end.

(** [data[k] = v] for a string [k]; the changed object is returned. *)
Definition setitem (data : json) (k : string) (v : json) : M json :=
  match data with
  | JObj m => ret (JObj (<[k := v]> m))
  | _ => raise TypeError
  end.

End Py.

(* ===================================================================== *)
(** ** class ContentStore                                                 *)
(* ===================================================================== *)

Module Store.
Import Py.
#[local] Open Scope py_scope.

(** The object: its only attribute is [self.filepath]. *)
Record store : Type := { filepath : string }.

Definition backup_path (self : store) : string := filepath self ++ ".backup".

(** [json.dump({}, f)] into the freshly opened storage file. *)
Definition write_empty (self : store) : M unit :=
  h <- open_write (filepath self) ;;
  json_dump (JObj ∅) h.

(** [_ensure_file_exists]: a missing file is created holding [{}]; a file
    that [json.load] rejects with [JSONDecodeError] is copied to
    [<filepath>.backup] and replaced by [{}]. Any other exception leaves
    the method, and so does one raised inside either handler. *)
Definition _ensure_file_exists (self : store) : M unit :=
  try_except
    (c <- open_read (filepath self) ;;
     _ <- json_load c ;;
     ret tt)
    (fun e =>
       match e with
       | FileNotFoundError =>
           Some (write_empty self ;;
                 logger INFO (CreatedNewStorageFile (filepath self)))
       | JSONDecodeError =>
           Some (logger ERROR CorruptedJsonFile ;;
                 shutil_copy (filepath self) (backup_path self) ;;
                 write_empty self)
       | _ => None
       end).

(** [ContentStore(filepath)], that is [__init__]. *)
Definition ContentStore (path : string) : M store :=
  let self := {| filepath := path |} in
  _ensure_file_exists self ;;
  ret self.

(** The entry written for one message; [now] is what
    [datetime.now().isoformat()] returned. *)
Definition record_of (chat_id message_id : Z) (now : string) : json :=
  JObj (<["chat_id" := JInt chat_id]>
        (<["message_id" := JInt message_id]>
         (<["created_at" := JStr now]> ∅))).

(** [except (IOError, json.JSONDecodeError) as e] of [save_content]. *)
Definition save_failed (content_id : string) (e : exn) : M unit :=
  logger CRITICAL (FailedToSaveContent content_id e) ;;
  raise StorageError.

(** [save_content]: read, insert at [content_id], write back; an [IOError]
    or a [JSONDecodeError] is logged and becomes a [StorageError]. *)
Definition save_content (self : store) (content_id : string)
    (chat_id message_id : Z) (now : string) : M unit :=
  try_except
    (c <- open_read (filepath self) ;;
     data <- json_load c ;;
     data <- setitem data content_id (record_of chat_id message_id now) ;;
     h <- open_write (filepath self) ;;
     json_dump data h ;;
     logger INFO (SavedContent content_id))
    (fun e =>
       if is_IOError e then Some (save_failed content_id e)
       else match e with
            | JSONDecodeError => Some (save_failed content_id e)
            | _ => None
            end).

(** [get_content]: only [FileNotFoundError] and [JSONDecodeError] are
    logged and turned into [StorageError]. *)
Definition get_content (self : store) (content_id : string) : M json :=
  try_except
    (c <- open_read (filepath self) ;;
     data <- json_load c ;;
     present <- contains data content_id ;;
     if negb present then raise ContentNotFoundError
     else getitem data content_id)
    (fun e =>
       match e with
       | FileNotFoundError =>
           Some (logger ERROR StorageFileNotFound ;; raise StorageError)
       | JSONDecodeError =>
           Some (logger ERROR CorruptedStorageFile ;; raise StorageError)
       | _ => None
       end).

End Store.

(* ===================================================================== *)
(** ** The handlers, as far as they concern the store                     *)
(* ===================================================================== *)

Module Bot.
Import Py Store.
#[local] Open Scope py_scope.

(** [ContentStore()] uses the default [filepath='content_store.json']. *)
Definition default_path : string := "content_store.json".

(** Lines 137-146 of [handle_private_group_message]: a new identifier, a
    store object, the record saved under the identifier. [src] is the
    entropy that [secrets] draws from and [now] the reading of the clock. *)
Definition ingest (src : nat -> byte) (now : string)
    (chat_id message_id : Z) : M string :=
  let content_id := Ident.generate_unique_id src in
  store <- ContentStore default_path ;;
  save_content store content_id chat_id message_id now ;;
  ret content_id.

(** What the handlers answer. *)
Inductive reply : Type :=
| NoReply
| LinkSaved (content_id : string)
| SaveFailed
| ErrorOccurred
| MessageDirectly
| UseSharedLinks
| Welcome
| InvalidLinkFormat
| CopyMessage (from_chat_id message_id : json)
| NotAvailable.

(** [handle_private_group_message]; [private_channel_id] is
    [int(os.getenv('PRIVATE_CHANNEL_ID', 0))]. No exception leaves the
    handler: [StorageError] and every other one are answered, the other
    ones after being logged. The handler is followed up to its answer;
    sending it, and the [logger.info] that comes after, are the
    transport's side. *)
Definition handle_private_group_message (private_channel_id : Z)
    (src : nat -> byte) (now : string) (chat_id message_id : Z) : M reply :=
  if negb (chat_id =? private_channel_id)%Z then ret NoReply
  else
    try_except
      (content_id <- ingest src now chat_id message_id ;;
       ret (LinkSaved content_id))
      (fun e =>
         match e with
         | StorageError => Some (ret SaveFailed)
         | _ =>
             Some (logger ERROR (ErrorInPrivateGroupHandler e) ;;
                   ret ErrorOccurred)
         end).

(** The outcome of lines 198-209 of [handle_start_command]. *)
Inductive resolution : Type :=
| InvalidFormat
| Found (content_info : json).

(** Lines 198-209 of [handle_start_command]: the identifier is checked,
    and only then a store object is made and asked for the record. *)
Definition resolve (content_id : string) : M resolution :=
  if negb (Ident.is_valid_content_id content_id) then ret InvalidFormat
  else
    store <- ContentStore default_path ;;
    content_info <- get_content store content_id ;;
    ret (Found content_info).

(** [handle_start_command]; [args] is [context.args]. The copy itself is
    the transport's, so the handler's answer on success is the request to
    copy [content_info['message_id']] from [content_info['chat_id']]. *)
Definition handle_start_command (chat_type : string) (args : list string)
    : M reply :=
  if String.eqb chat_type "group" || String.eqb chat_type "supergroup"
  then ret MessageDirectly
  else if String.eqb chat_type "channel" then ret UseSharedLinks
  else
    match args with
    | [] => ret Welcome
    | content_id :: _ =>
        try_except
          (r <- resolve content_id ;;
           match r with
           | InvalidFormat => ret InvalidLinkFormat
           | Found content_info =>
               from_chat_id <- getitem content_info "chat_id" ;;
               message_id <- getitem content_info "message_id" ;;
               ret (CopyMessage from_chat_id message_id)
           end)
          (fun e =>
             match e with
             | ContentNotFoundError =>
                 Some (logger WARNING (ContentNotFound content_id) ;;
                       ret NotAvailable)
             | _ =>
                 Some (logger ERROR (ErrorInStartHandler e) ;;
                       ret ErrorOccurred)
             end)
    end.

End Bot.

(* ===================================================================== *)
(** ** The persisted mapping and the states the handlers can reach        *)
(* ===================================================================== *)

Module Inv.
Import Py Store Bot.

(** The text of the file at [path], if there is one. *)
Definition text_at (path : string) (w : world) : option content :=
  body <$> files w !! path.

(** The persisted mapping: what the file at [path] holds when it parses to
    an object. *)
Definition mapping_of (path : string) (w : world) : option (gmap string json) :=
  match text_at path w with
  | Some (Doc (JObj m)) => Some m
  | _ => None
  end.

(** [open(path, 'r')] would not be refused. *)
Definition can_read (path : string) (w : world) : bool :=
  match files w !! path with
  | Some f => readable f
  | None => true
  end.

(** [open(path, 'w')] would not be refused. *)
Definition can_write (path : string) (w : world) : bool :=
  match files w !! path with
  | Some f => writable f
  | None => can_create w
  end.

(** Every key is an identifier of the grammar (and so one that the
    validator accepts). *)
Definition keys_valid (m : gmap string json) : Prop :=
  forall k : string, is_Some (m !! k) ->
    Ident.grammar k = true /\ Ident.is_valid_content_id k = true.

(** The invariant of the store kept at [path]: if the file holds a
    mapping, its keys are valid identifiers. *)
Definition store_inv_at (path : string) (w : world) : Prop :=
  forall m, mapping_of path w = Some m -> keys_valid m.

Definition store_inv (w : world) : Prop := store_inv_at default_path w.

(** The store before its first record: no file yet, or the empty mapping. *)
Definition initial (w : world) : Prop :=
  text_at default_path w = None \/ mapping_of default_path w = Some ∅.

(** The states that the two handlers lead to, whatever they are called
    with and whatever they answer. *)
Inductive reachable : world -> Prop :=
| reach_initial (w : world) :
    initial w -> reachable w
| reach_message (w : world) (private_channel_id : Z) (src : nat -> byte)
    (now : string) (chat_id message_id : Z) :
    reachable w ->
    reachable (handle_private_group_message private_channel_id src now
                 chat_id message_id w).2
| reach_start (w : world) (chat_type : string) (args : list string) :
    reachable w ->
    reachable (handle_start_command chat_type args w).2.

End Inv.

(** Concrete machines and inputs used below. *)
Module Sample.
Import Py Store Bot.

Definition zeros : nat -> byte := fun _ => x00.

Definition the_store : store := {| filepath := default_path |}.

(** An empty directory on a healthy device. *)
Definition fresh : world := World ∅ DirWritable false [] [].

Definition one_record : gmap string json :=
  {[ "AAAAAAAAAAA" := record_of 1001 42 "2024-01-01T00:00:00" ]}.

(** One record stored; the device is full or not. *)
Definition stored (full : bool) : world :=
  World {[ default_path := File true true (Doc (JObj one_record)) ]}
        DirWritable full [] [].

(** The storage file may not be read. *)
Definition locked : world :=
  World {[ default_path := File false true (Doc (JObj one_record)) ]}
        DirWritable false [] [].

(** The storage file does not parse. *)
Definition corrupt : world :=
  World {[ default_path := File true true (Junk "{oops") ]}
        DirWritable false [] [].

(** The storage file holds bytes that are not text. *)
Definition garbled : world :=
  World {[ default_path := File true true (Unloadable NotText (String "255" (String "254" EmptyString))) ]}
        DirWritable false [] [].

(** The storage file parses to a list. *)
Definition listed : world :=
  World {[ default_path := File true true (Doc (JList [])) ]}
        DirWritable false [] [].

(** A corrupt storage file beside another file of the directory. *)
Definition with_notes : world :=
  World {[ default_path := File true true (Junk "{oops");
           "notes.txt" := File true true (Junk "to do") ]}
        DirWritable false [] [].

Definition ones : nat -> byte := fun _ => xff.

(** Eight class characters and a final newline. *)
Definition newline_id : string := "AAAAAAAA" ++ String Ident.newline EmptyString.

End Sample.

(** Shapes of parsed values. *)
Module Shape.
Import Py.

(** [isinstance(v, dict)]. *)
Definition is_object (v : json) : bool :=
  match v with
  | JObj _ => true
  | _ => false
  end.

End Shape.

(* ===================================================================== *)
(** ** Proof tactics                                                      *)
(* ===================================================================== *)

(** Unfolding of the monad and of the file primitives. *)
Ltac py_unfold :=
  unfold Store.ContentStore, Store._ensure_file_exists, Store.write_empty,
    Store.save_content, Store.get_content, Py.shutil_copy, Py.json_dump,
    Store.save_failed, Py.json_load, Py.contains, Py.getitem, Py.setitem,
    Py.write_text, Py.open_write, Py.open_read, Py.logger, Py.try_except,
    Py.bind, Py.ret, Py.raise in *.

(** Running a call under hypotheses that settle its tests. *)
Ltac py_run :=
  repeat (progress
            (cbn [Py.files Py.dir Py.disk_full Py.trace Py.log Py.add_event
                  Py.add_log Py.set_files fst snd Py.readable Py.writable
                  Py.body Py.set_body Py.set_mode Py.is_IOError negb andb
                  orb Py.is_empty_text Py.empty_text Py.loads Py.load_exn])
          || match goal with
             | H : ?x = _ |- context [?x] => rewrite H
             end).

(** Running a call case by case: whenever the call is stuck on a test of
    the machine (a file looked up, a permission, a text, the directory,
    the device), the test is decided both ways. *)
Ltac py_split :=
  repeat (progress py_run
          || rewrite alter_insert_eq
          || rewrite lookup_insert_eq
          || (rewrite lookup_insert_ne by congruence)
          || match goal with
             | |- context [match Py.files ?w !! ?p with _ => _ end] =>
                 is_var w; destruct (Py.files w !! p) eqn:?
             | |- context [if Py.readable ?f then _ else _] =>
                 is_var f; destruct (Py.readable f) eqn:?
             | |- context [if Py.writable ?f then _ else _] =>
                 is_var f; destruct (Py.writable f) eqn:?
             | |- context [Py.loads (Py.body ?f)] =>
                 is_var f; destruct (Py.body f) eqn:?
             | |- context [Py.is_empty_text (Py.body ?f)] =>
                 is_var f; destruct (Py.body f) eqn:?
             | |- context [match Py.dir ?w with _ => _ end] =>
                 is_var w; destruct (Py.dir w) eqn:?
             | |- context [if Py.disk_full ?w then _ else _] =>
                 is_var w; destruct (Py.disk_full w) eqn:?
             | |- context [if Py.disk_full ?w && _ then _ else _] =>
                 is_var w; destruct (Py.disk_full w) eqn:?
             | |- context [match ?raw with EmptyString => _ | String _ _ => _ end] =>
                 is_var raw; destruct raw
             | |- context [Py.load_exn ?why] =>
                 is_var why; destruct why
             end).

(** The value that the storage file parses to, shape by shape. *)
Ltac py_value :=
  match goal with
  | v : Py.json |- _ => destruct v as [| | | | | |?]
  end.

(** Running [_ensure_file_exists] on any machine, case by case. *)
Ltac ensure_cases :=
  unfold Inv.can_read, Inv.mapping_of, Inv.text_at; py_unfold; py_split.

(** Running [get_content] on any machine, case by case, down to the test
    [content_id in data]. *)
Ltac get_cases :=
  unfold Inv.can_read, Inv.mapping_of, Inv.text_at; py_unfold;
  cbn [fmap option_fmap option_map]; py_split;
  cbn [fmap option_fmap option_map]; py_run;
  try (py_value; py_split;
       repeat match goal with
         | |- context [Py.is_substring ?k ?s] => destruct (Py.is_substring k s)
         | |- context [existsb ?p ?l] => destruct (existsb p l)
         | |- context [bool_decide (is_Some (?m !! ?k))] =>
             destruct (bool_decide_reflect (is_Some (m !! k)));
             destruct (m !! k) eqn:?
         end; py_run).
(* ===================================================================== *)
(** ** Identifiers: what the generator makes and what the validator takes *)
(* ===================================================================== *)

Module IdentFacts.
Import Ident.

Lemma land63_lt (i : N) : (N.land i 63 < 64)%N.
Proof.
  change 63%N with (N.ones 6). rewrite N.land_ones.
  apply N.mod_lt. discriminate.
Qed.

(** Every table entry, once [+] and [/] are translated, is in the class. *)
Lemma digit_in_class (i : N) : in_class (urlsafe_translate (b64_digit i)) = true.
Proof.
  unfold b64_digit. pose proof (land63_lt i) as H.
  set (k := N.land i 63) in *. clearbody k.
  assert (Hk : (N.to_nat k < 64)%nat) by lia.
  set (j := N.to_nat k) in *. clearbody j. clear H.
  do 64 (destruct j as [|j]; [reflexivity|]). lia.
Qed.

Lemma in_class_not_pad (c : ascii) : in_class c = true -> Ascii.eqb c pad = false.
Proof.
  intros H. destruct (Ascii.eqb_spec c pad) as [->|]; [discriminate H | reflexivity].
Qed.

Lemma in_class_not_newline (c : ascii) :
  in_class c = true -> Ascii.eqb c newline = false.
Proof.
  intros H. destruct (Ascii.eqb_spec c newline) as [->|]; [discriminate H | reflexivity].
Qed.

(** Eight bytes give eleven digits and one pad, which [rstrip] removes. *)
Lemma generate_unique_id_digits (src : nat -> byte) :
  exists l : list ascii,
    generate_unique_id src = string_of_list_ascii l
    /\ List.length l = 11%nat /\ forallb in_class l = true.
Proof.
  unfold generate_unique_id, token_urlsafe, token_bytes, urlsafe_b64encode.
  cbn [seq List.map b64encode].
  cbv [rstrip fold_right is_nil andb].
  change (Ascii.eqb (urlsafe_translate pad) pad) with true. cbv iota.
  rewrite (in_class_not_pad _ (digit_in_class _)).
  eexists. split; [reflexivity|]. split; [reflexivity|].
  cbn [forallb]. rewrite !digit_in_class. reflexivity.
Qed.

(** A run of class characters that reaches the end of the string. *)
Lemma rep_all_class (s : string) (n : nat) :
  forallb in_class (list_ascii_of_string s) = true ->
  (8 <= n + String.length s)%nat ->
  rep_then_dollar n s = true.
Proof.
  revert n. induction s as [|c s IH]; intros n Hall Hlen;
    cbn [rep_then_dollar at_dollar list_ascii_of_string forallb String.length] in *.
  - rewrite andb_true_r. apply Nat.leb_le. lia.
  - apply andb_true_iff in Hall as [Hc Hs]. rewrite Hc.
    rewrite IH; [reflexivity | assumption | lia].
Qed.

(** The same run followed by one final newline is matched as well. *)
Lemma rep_all_class_newline (s : string) (n : nat) :
  forallb in_class (list_ascii_of_string s) = true ->
  (8 <= n + String.length s)%nat ->
  rep_then_dollar n (s ++ String newline EmptyString) = true.
Proof.
  revert n. induction s as [|c s IH]; intros n Hall Hlen.
  - change (rep_then_dollar n (String newline EmptyString) = true).
    cbn [rep_then_dollar at_dollar String.length] in *.
    change (in_class newline) with false. cbv iota.
    change (Ascii.eqb newline newline) with true. rewrite andb_true_r.
    apply Nat.leb_le. lia.
  - change (rep_then_dollar n (String c (s ++ String newline EmptyString)) = true).
    cbn [rep_then_dollar list_ascii_of_string forallb String.length] in *.
    apply andb_true_iff in Hall as [Hc Hs]. rewrite Hc.
    rewrite IH; [reflexivity | assumption | lia].
Qed.

(** Nothing else is matched. *)
Lemma rep_then_dollar_inv (s : string) (n : nat) :
  rep_then_dollar n s = true ->
  exists body : string,
    (s = body \/ s = body ++ String newline EmptyString)
    /\ forallb in_class (list_ascii_of_string body) = true
    /\ (8 <= n + String.length body)%nat.
Proof.
  revert n. induction s as [|c s IH]; intros n H;
    cbn [rep_then_dollar] in H.
  - exists EmptyString. cbn [at_dollar] in H. rewrite andb_true_r in H. apply Nat.leb_le in H.
    cbn. split; [now left|]. split; [reflexivity | lia].
  - assert (Hend : (8 <=? n)%nat && at_dollar (String c s) = true ->
                   in_class c = false /\ s = EmptyString /\ c = newline /\ (8 <= n)%nat).
    { intros E. apply andb_true_iff in E as [E1 E2]. apply Nat.leb_le in E1.
      cbn in E2. destruct s; [|discriminate E2].
      apply Ascii.eqb_eq in E2. subst c.
      split; [reflexivity|]. split; [reflexivity|]. split; [reflexivity | lia]. }
    destruct (in_class c) eqn:Hc.
    + apply orb_true_iff in H as [H|H].
      * destruct (IH _ H) as (body & Hs & Hall & Hlen).
        exists (String c body). cbn. rewrite Hc, Hall. split.
        { destruct Hs as [-> | ->]; [now left | now right]. }
        split; [reflexivity | lia].
      * destruct (Hend H) as (Hc' & _). discriminate Hc'.
    + destruct (Hend H) as (_ & -> & -> & Hn).
      exists EmptyString. cbn. split; [now right|]. split; [reflexivity | lia].
Qed.

(** What the regular expression accepts, exactly: the strings of the
    grammar, and those strings followed by one newline. *)
Lemma is_valid_content_id_iff (s : string) :
  is_valid_content_id s = true <->
  grammar s = true \/
  exists body, s = body ++ String newline EmptyString /\ grammar body = true.
Proof.
  unfold is_valid_content_id, grammar. split.
  - intros H. destruct (rep_then_dollar_inv _ _ H) as (body & Hs & Hall & Hlen).
    assert (G : (8 <=? String.length body)%nat
                && forallb in_class (list_ascii_of_string body) = true).
    { rewrite Hall, andb_true_r. apply Nat.leb_le. lia. }
    destruct Hs as [-> | ->]; [now left | right; now exists body].
  - intros [H | (body & -> & H)]; apply andb_true_iff in H as [Hlen Hall];
      apply Nat.leb_le in Hlen.
    + apply rep_all_class; [assumption | lia].
    + apply rep_all_class_newline; [assumption | lia].
Qed.

Lemma grammar_is_valid (s : string) :
  grammar s = true -> is_valid_content_id s = true.
Proof. intros H. apply is_valid_content_id_iff. now left. Qed.

Lemma length_string_of_list_ascii (l : list ascii) :
  String.length (string_of_list_ascii l) = List.length l.
Proof. induction l as [|c l IH]; cbn; [reflexivity | now rewrite IH]. Qed.

Lemma generate_unique_id_grammar (src : nat -> byte) :
  String.length (generate_unique_id src) = 11%nat
  /\ grammar (generate_unique_id src) = true.
Proof.
  destruct (generate_unique_id_digits src) as (l & -> & Hlen & Hall).
  unfold grammar.
  rewrite length_string_of_list_ascii, list_ascii_of_string_of_list_ascii, Hlen, Hall.
  split; reflexivity.
Qed.

(** C7. Every identifier that [generate_unique_id] returns, whatever the
    entropy, has at least 11 characters (exactly 11), all of them in
    [[A-Za-z0-9_-]], and [is_valid_content_id] accepts it. *)
Theorem generate_unique_id_valid (src : nat -> byte) :
  (11 <= String.length (generate_unique_id src))%nat
  /\ forallb in_class (list_ascii_of_string (generate_unique_id src)) = true
  /\ is_valid_content_id (generate_unique_id src) = true.
Proof.
  destruct (generate_unique_id_grammar src) as [Hlen Hg].
  split; [lia|]. split.
  - unfold grammar in Hg. apply andb_true_iff in Hg as [_ Hg]. exact Hg.
  - apply grammar_is_valid, Hg.
Qed.

(** C2, at the input ["AAAAAAAA\n"]: the string has a character outside
    [[A-Za-z0-9_-]] (its final newline), so it is not in the grammar, and
    [is_valid_content_id] returns [True] for it, because [$] also matches
    just before a final newline. *)
Theorem is_valid_content_id_trailing_newline :
  is_valid_content_id Sample.newline_id = true
  /\ grammar Sample.newline_id = false
  /\ existsb (fun c => negb (in_class c))
             (list_ascii_of_string Sample.newline_id) = true.
Proof. repeat split. Qed.

End IdentFacts.

(* ===================================================================== *)
(** ** The store: what its methods do to the files                        *)
(* ===================================================================== *)

Module StoreFacts.
Import Py Store Bot Inv.
#[local] Open Scope py_scope.

Lemma files_add_event (e : event) (w : world) : files (add_event e w) = files w.
Proof. reflexivity. Qed.

Lemma length_append (s1 s2 : string) :
  String.length (s1 ++ s2) = (String.length s1 + String.length s2)%nat.
Proof.
  induction s1 as [|c s1 IH]; [reflexivity|].
  change (S (String.length (s1 ++ s2)) = S (String.length s1 + String.length s2)).
  now rewrite IH.
Qed.

(** The backup is another file than the storage file. *)
Lemma backup_path_ne (self : store) : backup_path self ≠ filepath self.
Proof.
  unfold backup_path. intros E.
  apply (f_equal String.length) in E. rewrite length_append in E.
  cbn in E. lia.
Qed.

Lemma text_at_None (path : string) (w : world) :
  text_at path w = None -> files w !! path = None.
Proof. unfold text_at. destruct (files w !! path); [discriminate | reflexivity]. Qed.

Lemma text_at_Some (path : string) (w : world) (c : content) :
  text_at path w = Some c -> exists f, files w !! path = Some f /\ body f = c.
Proof.
  unfold text_at. destruct (files w !! path) as [f|]; [|discriminate].
  cbn. intros H. exists f. split; [reflexivity | congruence].
Qed.

(** The mapping after a call, from the text or the files after it. *)
Lemma mapping_of_text (path : string) (w w' : world) :
  text_at path w' = text_at path w -> mapping_of path w' = mapping_of path w.
Proof. unfold mapping_of. now intros ->. Qed.

Lemma mapping_of_files (path : string) (w w' : world) :
  files w' = files w -> mapping_of path w' = mapping_of path w.
Proof. unfold mapping_of, text_at. now intros ->. Qed.

Lemma mapping_text (path : string) (w : world) (m : gmap string json) :
  mapping_of path w = Some m -> text_at path w = Some (Doc (JObj m)).
Proof.
  unfold mapping_of.
  destruct (text_at path w) as [[[| | | | | |m0]| | |]|]; try discriminate.
  congruence.
Qed.

(** The texts that [json.load] rejects with [JSONDecodeError] hold no
    mapping. *)
Lemma loads_mapping (path : string) (w : world) (c : content) (e : exn) :
  text_at path w = Some c -> loads c = Raise e -> mapping_of path w = None.
Proof.
  unfold mapping_of. intros -> H. destruct c; try reflexivity. discriminate H.
Qed.

(** *** [get_content], case by case *)

Lemma get_content_files (self : store) (content_id : string) (w : world) :
  files (get_content self content_id w).2 = files w.
Proof.
  py_unfold. py_split; try reflexivity.
  py_value; try reflexivity.
  - destruct (is_substring content_id _); reflexivity.
  - destruct (existsb (is_str content_id) _); reflexivity.
  - destruct (bool_decide (is_Some (_ !! content_id))); [|reflexivity].
    cbn. destruct (_ !! content_id); reflexivity.
Qed.

Lemma get_content_missing (self : store) (content_id : string) (w : world) :
  files w !! filepath self = None ->
  (get_content self content_id w).1 = Raise StorageError.
Proof. intros H. py_unfold. py_run. reflexivity. Qed.

Lemma get_content_unreadable (self : store) (content_id : string) (w : world)
    (f : file) :
  files w !! filepath self = Some f -> readable f = false ->
  (get_content self content_id w).1 = Raise PermissionError.
Proof. intros H Hr. py_unfold. py_run. reflexivity. Qed.

Lemma get_content_junk (self : store) (content_id : string) (w : world)
    (f : file) :
  files w !! filepath self = Some f -> readable f = true ->
  loads (body f) = Raise JSONDecodeError ->
  (get_content self content_id w).1 = Raise StorageError.
Proof.
  intros H Hr Hb. py_unfold. py_run. reflexivity.
Qed.

Lemma get_content_found (self : store) (content_id : string) (w : world)
    (f : file) (m : gmap string json) (v : json) :
  files w !! filepath self = Some f -> readable f = true ->
  body f = Doc (JObj m) -> m !! content_id = Some v ->
  get_content self content_id w
  = (Return v, add_event (OpenRead (filepath self)) w).
Proof.
  intros H Hr Hb Hv. py_unfold. py_run.
  rewrite bool_decide_eq_true_2 by eauto. py_run.
  reflexivity.
Qed.

Lemma get_content_absent (self : store) (content_id : string) (w : world)
    (f : file) (m : gmap string json) :
  files w !! filepath self = Some f -> readable f = true ->
  body f = Doc (JObj m) -> m !! content_id = None ->
  get_content self content_id w
  = (Raise ContentNotFoundError, add_event (OpenRead (filepath self)) w).
Proof.
  intros H Hr Hb Hv. py_unfold. py_run.
  rewrite bool_decide_eq_false_2 by (intros [? ?]; discriminate).
  reflexivity.
Qed.

(** *** [save_content], case by case *)

(** The three ways a call can end: nothing written; the file left torn by
    a device that ran out of space; the mapping rewritten with the new
    entry. *)
Lemma save_content_cases (self : store) (content_id : string)
    (chat_id message_id : Z) (now : string) (w : world) :
  let r := save_content self content_id chat_id message_id now w in
  (r.1 ≠ Return tt /\ files r.2 = files w)
  \/ (exists (f : file) (m : gmap string json),
        files w !! filepath self = Some f /\ readable f = true
        /\ writable f = true /\ body f = Doc (JObj m)
        /\ disk_full w = true /\ r.1 = Raise StorageError
        /\ files r.2
           = <[filepath self :=
                 set_body (Torn (Doc (JObj (<[content_id :=
                             record_of chat_id message_id now]> m)))) f]>
               (files w))
  \/ (exists (f : file) (m : gmap string json),
        files w !! filepath self = Some f /\ readable f = true
        /\ writable f = true /\ body f = Doc (JObj m)
        /\ disk_full w = false
        /\ r = (Return tt,
                add_log (INFO, SavedContent content_id)
                  (set_files
                     (<[filepath self :=
                          set_body (Doc (JObj (<[content_id :=
                                      record_of chat_id message_id now]> m))) f]>
                        (files w))
                     (add_event (OpenWrite (filepath self))
                        (add_event (OpenRead (filepath self)) w))))).
Proof.
  cbv zeta. py_unfold. py_split;
    try (left; split; [discriminate | reflexivity]).
  py_value; py_split;
    try (left; split; [discriminate | reflexivity]).
  - right; left. eexists _, _. repeat split; try reflexivity; eassumption.
  - right; right. eexists _, _. repeat split; try reflexivity; eassumption.
Qed.

Lemma save_content_ok (self : store) (content_id : string)
    (chat_id message_id : Z) (now : string) (w : world) (f : file)
    (m : gmap string json) :
  files w !! filepath self = Some f -> readable f = true ->
  writable f = true -> body f = Doc (JObj m) -> disk_full w = false ->
  (save_content self content_id chat_id message_id now w).1 = Return tt.
Proof.
  intros Hf Hr Hw Hb Hd. py_unfold. py_run. reflexivity.
Qed.

(** What a returning call leaves behind. *)
Lemma save_content_returns (self : store) (content_id : string)
    (chat_id message_id : Z) (now : string) (w w' : world) :
  save_content self content_id chat_id message_id now w = (Return tt, w') ->
  exists (f : file) (m : gmap string json),
    files w !! filepath self = Some f /\ readable f = true
    /\ writable f = true /\ body f = Doc (JObj m) /\ disk_full w = false
    /\ files w'
       = <[filepath self :=
             set_body (Doc (JObj (<[content_id :=
                         record_of chat_id message_id now]> m))) f]>
           (files w)
    /\ disk_full w' = false.
Proof.
  intros H.
  destruct (save_content_cases self content_id chat_id message_id now w)
    as [[Hn _] | [(f & m & _ & _ & _ & _ & _ & E & _)
                 | (f & m & Hf & Hr & Hw & Hb & Hd & E)]].
  - rewrite H in Hn. now contradiction Hn.
  - rewrite H in E. discriminate E.
  - rewrite H in E. exists f, m.
    assert (E' : w' = add_log (INFO, SavedContent content_id)
                   (set_files
                      (<[filepath self :=
                           set_body (Doc (JObj (<[content_id :=
                                       record_of chat_id message_id now]> m))) f]>
                         (files w))
                      (add_event (OpenWrite (filepath self))
                         (add_event (OpenRead (filepath self)) w))))
      by congruence.
    subst w'. repeat split; assumption.
Qed.

(** A call that raises [StorageError] has logged the failure, at the level
    [CRITICAL], and nothing else. *)
Lemma save_content_failure_logged (self : store) (content_id : string)
    (chat_id message_id : Z) (now : string) (w : world) :
  (save_content self content_id chat_id message_id now w).1
    = Raise StorageError ->
  exists e : exn,
    log (save_content self content_id chat_id message_id now w).2
    = (log w ++ [(CRITICAL, FailedToSaveContent content_id e)])%list.
Proof.
  py_unfold. py_split; try discriminate; try (intros _; eexists; reflexivity).
  py_value; py_split; try discriminate;
    intros _; eexists; reflexivity.
Qed.

(** *** [_ensure_file_exists], case by case *)

Lemma ensure_parsable (self : store) (w : world) (f : file) (v : json) :
  files w !! filepath self = Some f -> readable f = true -> body f = Doc v ->
  _ensure_file_exists self w
  = (Return tt, add_event (OpenRead (filepath self)) w).
Proof. intros Hf Hr Hb. py_unfold. py_run. reflexivity. Qed.

Lemma ensure_unreadable (self : store) (w : world) (f : file) :
  files w !! filepath self = Some f -> readable f = false ->
  _ensure_file_exists self w
  = (Raise PermissionError, add_event (OpenRead (filepath self)) w).
Proof. intros Hf Hr. py_unfold. py_run. reflexivity. Qed.

Lemma ensure_unloadable (self : store) (w : world) (f : file)
    (why : load_failure) (raw : string) :
  files w !! filepath self = Some f -> readable f = true ->
  body f = Unloadable why raw ->
  _ensure_file_exists self w
  = (Raise (load_exn why), add_event (OpenRead (filepath self)) w).
Proof. intros Hf Hr Hb. py_unfold. py_run. destruct why; reflexivity. Qed.

Lemma ensure_creates (self : store) (w : world) :
  files w !! filepath self = None -> can_create w = true ->
  disk_full w = false ->
  exists w' : world,
    _ensure_file_exists self w = (Return tt, w')
    /\ files w' = <[filepath self := File true true (Doc (JObj ∅))]> (files w)
    /\ disk_full w' = false.
Proof.
  intros Hf Hc Hd. unfold can_create in Hc.
  destruct (dir w) eqn:Hdir; try discriminate Hc.
  py_unfold. py_split.
  eexists. split; [reflexivity|]. split; [reflexivity | assumption].
Qed.


(** A file that parses is left alone by [_ensure_file_exists]. *)
Lemma ensure_keeps_doc (self : store) (w : world) (v : json) :
  text_at (filepath self) w = Some (Doc v) ->
  files (_ensure_file_exists self w).2 = files w.
Proof.
  intros Ht. destruct (text_at_Some _ _ _ Ht) as (f & Hf & Hb).
  destruct (readable f) eqn:Hr.
  - now rewrite (ensure_parsable self w f v Hf Hr Hb).
  - now rewrite (ensure_unreadable self w f Hf Hr).
Qed.

(** What [_ensure_file_exists] raises, when it raises: an [IOError] of an
    [open] or of a write, or what [json.load] raised on the storage file
    when that is not a [JSONDecodeError]. *)
Lemma ensure_outcome (self : store) (w : world) (e : exn) :
  (_ensure_file_exists self w).1 = Raise e ->
  is_IOError e = true
  \/ (can_read (filepath self) w = true
      /\ exists c : content,
           text_at (filepath self) w = Some c /\ loads c = Raise e
           /\ e ≠ JSONDecodeError).
Proof.
  pose proof (backup_path_ne self). ensure_cases; intros E; try discriminate E; injection E as <-;
    first [ left; reflexivity
          | right; cbn [fmap option_fmap option_map];
            (split; [reflexivity|]); eexists; (split; [reflexivity|]);
            py_run; (split; [reflexivity | discriminate]) ].
Qed.

(** When [_ensure_file_exists] returns, the storage file is there, can be
    read and parses. *)
Lemma ensure_returns (self : store) (w w' : world) :
  _ensure_file_exists self w = (Return tt, w') ->
  exists (f : file) (v : json),
    files w' !! filepath self = Some f /\ readable f = true
    /\ body f = Doc v.
Proof.
  pose proof (backup_path_ne self). ensure_cases; intros E; try discriminate E;
    (assert (E' : w' = _) by (symmetry; exact (f_equal snd E)));
    subst w'; clear E; cbn [snd files set_files add_event add_log];
    rewrite ?lookup_insert_eq;
    eexists _, _;
    (split; [first [reflexivity | eassumption]|]);
    split; first [reflexivity | eassumption].
Qed.

(** The files other than the storage file and its backup are left alone,
    and so are the directory and the device. *)
Lemma ensure_frame (self : store) (w : world) :
  (forall p : string, p ≠ filepath self -> p ≠ backup_path self ->
     files (_ensure_file_exists self w).2 !! p = files w !! p)
  /\ dir (_ensure_file_exists self w).2 = dir w
  /\ disk_full (_ensure_file_exists self w).2 = disk_full w.
Proof.
  pose proof (backup_path_ne self). ensure_cases;
    (split; [intros p Hp1 Hp2;
             rewrite ?lookup_insert_ne by congruence; reflexivity |]);
    split; first [reflexivity | assumption | congruence].
Qed.

(** The storage file afterwards holds what it held, or no mapping, or the
    empty mapping. *)
Lemma ensure_text (self : store) (w : world) :
  let w' := (_ensure_file_exists self w).2 in
  text_at (filepath self) w' = text_at (filepath self) w
  \/ mapping_of (filepath self) w' = None
  \/ mapping_of (filepath self) w' = Some ∅.
Proof.
  cbv zeta. pose proof (backup_path_ne self). ensure_cases;
    cbn [fmap option_fmap option_map body set_body];
    first [ left; reflexivity | right; left; reflexivity
          | right; right; reflexivity
          | left; congruence ].
Qed.

(** The log gets at most one record: that the file was created, or that
    it was found corrupted. *)
Lemma ensure_log (self : store) (w : world) :
  exists l : list (level * message),
    log (_ensure_file_exists self w).2 = (log w ++ l)%list
    /\ (l = [] \/ l = [(INFO, CreatedNewStorageFile (filepath self))]
        \/ l = [(ERROR, CorruptedJsonFile)]).
Proof.
  pose proof (backup_path_ne self). ensure_cases;
    first [ exists []; split; [rewrite app_nil_r; reflexivity | now left]
          | eexists; split; [reflexivity | right; left; reflexivity]
          | eexists; split; [reflexivity | right; right; reflexivity] ].
Qed.

Lemma ContentStore_eq (path : string) (w : world) :
  ContentStore path w
  = match _ensure_file_exists {| filepath := path |} w with
    | (Return _, w') => (Return {| filepath := path |}, w')
    | (Raise e, w') => (Raise e, w')
    end.
Proof. reflexivity. Qed.

Lemma ContentStore_world (path : string) (w : world) :
  (ContentStore path w).2 = (_ensure_file_exists {| filepath := path |} w).2.
Proof.
  rewrite ContentStore_eq.
  destruct (_ensure_file_exists _ w) as [[?|?] ?]; reflexivity.
Qed.

Lemma ContentStore_self (path : string) (w w' : world) (self : store) :
  ContentStore path w = (Return self, w') -> self = {| filepath := path |}.
Proof.
  rewrite ContentStore_eq.
  destruct (_ensure_file_exists _ w) as [[?|?] ?]; intros E; now inversion E.
Qed.

Lemma ContentStore_returns (path : string) (w w' : world) (self : store) :
  ContentStore path w = (Return self, w') ->
  self = {| filepath := path |}
  /\ _ensure_file_exists {| filepath := path |} w = (Return tt, w').
Proof.
  rewrite ContentStore_eq.
  destruct (_ensure_file_exists _ w) as [[[]|e] w1]; [|discriminate].
  intros H. split; congruence.
Qed.

Lemma ContentStore_raise (path : string) (w : world) (e : exn) :
  (ContentStore path w).1 = Raise e ->
  (_ensure_file_exists {| filepath := path |} w).1 = Raise e.
Proof.
  rewrite ContentStore_eq.
  destruct (_ensure_file_exists _ w) as [[[]|e'] w1]; [discriminate|].
  cbn [fst]. congruence.
Qed.

Lemma ContentStore_keeps_mapping (path : string) (w : world)
    (m : gmap string json) :
  mapping_of path w = Some m ->
  files (ContentStore path w).2 = files w
  /\ disk_full (ContentStore path w).2 = disk_full w.
Proof.
  intros Hm. rewrite ContentStore_world. split.
  - apply (ensure_keeps_doc {| filepath := path |} w (JObj m)).
    now apply mapping_text.
  - now destruct (ensure_frame {| filepath := path |} w) as (_ & _ & P).
Qed.

Lemma keys_valid_empty : keys_valid ∅.
Proof. intros k [v Hv]. rewrite lookup_empty in Hv. discriminate. Qed.

Lemma keys_valid_insert (m : gmap string json) (k : string) (v : json) :
  keys_valid m -> Ident.grammar k = true -> keys_valid (<[k := v]> m).
Proof.
  intros Hm Hk k' Hk'. destruct (decide (k = k')) as [<-|Hne].
  - split; [assumption | now apply IdentFacts.grammar_is_valid].
  - rewrite lookup_insert_ne in Hk' by assumption. now apply Hm.
Qed.

(** *** The invariant through the store's methods *)

Lemma store_inv_files (path : string) (w w' : world) :
  files w' = files w -> store_inv_at path w -> store_inv_at path w'.
Proof.
  intros E Hw m. rewrite (mapping_of_files path w w' E). apply Hw.
Qed.

Lemma ensure_inv (self : store) (w : world) :
  store_inv_at (filepath self) w ->
  store_inv_at (filepath self) (_ensure_file_exists self w).2.
Proof.
  intros Hw m.
  destruct (ensure_text self w) as [E|[E|E]].
  - rewrite (mapping_of_text _ _ _ E). apply Hw.
  - rewrite E. discriminate.
  - rewrite E. intros E'. apply (inj Some) in E' as <-. apply keys_valid_empty.
Qed.

Lemma save_content_inv (self : store) (src : nat -> byte)
    (chat_id message_id : Z) (now : string) (w : world) :
  store_inv_at (filepath self) w ->
  store_inv_at (filepath self)
    (save_content self (Ident.generate_unique_id src) chat_id message_id
       now w).2.
Proof.
  intros Hw m.
  destruct (save_content_cases self
              (Ident.generate_unique_id src) chat_id message_id now w)
    as [[_ E] | [(f & m0 & Hf & _ & _ & Hb & _ & _ & E) | (f & m0 & Hf & _ & _ & Hb & _ & E)]].
  - unfold mapping_of, text_at. rewrite E. apply Hw.
  - unfold mapping_of, text_at. rewrite E, lookup_insert_eq. discriminate.
  - rewrite E. unfold mapping_of, text_at. cbn [snd files set_files add_log].
    rewrite lookup_insert_eq. cbn [fmap option_fmap option_map body set_body].
    intros E'. apply (inj Some) in E' as <-. apply keys_valid_insert.
    + apply Hw. unfold mapping_of, text_at. now rewrite Hf; cbn; rewrite Hb.
    + exact (proj2 (IdentFacts.generate_unique_id_grammar src)).
Qed.

Lemma get_content_inv (self : store) (path content_id : string) (w : world) :
  store_inv_at path w -> store_inv_at path (get_content self content_id w).2.
Proof.
  apply store_inv_files, get_content_files.
Qed.

(** C10. [get_content] only reads: whatever the identifier and the state
    of the machine, and whether it returns a record or raises, the files
    after the call are the files before it. *)
Theorem get_content_read_only (self : store) (content_id : string) (w : world) :
  files (get_content self content_id w).2 = files w
  /\ mapping_of (filepath self) (get_content self content_id w).2
     = mapping_of (filepath self) w.
Proof.
  split; [apply get_content_files|].
  unfold mapping_of, text_at. now rewrite get_content_files.
Qed.

(** C9. A successful [save_content] rewrites the mapping it read with the
    entry at [content_id] inserted or overwritten; every other key has the
    record it had, and no other file is touched. *)
Theorem save_content_frame (self : store) (content_id : string)
    (chat_id message_id : Z) (now : string) (w w' : world) :
  save_content self content_id chat_id message_id now w = (Return tt, w') ->
  exists m m' : gmap string json,
    mapping_of (filepath self) w = Some m
    /\ mapping_of (filepath self) w' = Some m'
    /\ m' !! content_id = Some (record_of chat_id message_id now)
    /\ (forall k : string, k ≠ content_id -> m' !! k = m !! k)
    /\ (forall p : string, p ≠ filepath self -> files w' !! p = files w !! p).
Proof.
  intros H.
  destruct (save_content_returns _ _ _ _ _ _ _ H)
    as (f & m & Hf & _ & _ & Hb & _ & E & _).
  exists m, (<[content_id := record_of chat_id message_id now]> m).
  unfold mapping_of, text_at. rewrite E, Hf.
  cbn [fmap option_fmap option_map]. rewrite Hb, lookup_insert_eq.
  split; [reflexivity|]. split; [reflexivity|].
  split; [apply lookup_insert_eq|]. split.
  - intros k Hk. now apply lookup_insert_ne.
  - intros p Hp. now apply lookup_insert_ne.
Qed.

Lemma save_content_frame_witness :
  exists w' : world,
    save_content Sample.the_store "BBBBBBBBBBB" 7 8 "2024-01-02T00:00:00"
      (Sample.stored false) = (Return tt, w')
    /\ exists m m' : gmap string json,
         mapping_of default_path (Sample.stored false) = Some m
         /\ mapping_of default_path w' = Some m'
         /\ m' !! "BBBBBBBBBBB" = Some (record_of 7 8 "2024-01-02T00:00:00")
         /\ (forall k : string, k ≠ "BBBBBBBBBBB" -> m' !! k = m !! k)
         /\ (forall p : string, p ≠ default_path ->
               files w' !! p = files (Sample.stored false) !! p).
Proof.
  eexists. split; [vm_compute; reflexivity|].
  apply (save_content_frame Sample.the_store "BBBBBBBBBBB" 7 8
           "2024-01-02T00:00:00" (Sample.stored false)).
  vm_compute. reflexivity.
Defined.

(** *** Failure of [save_content] *)

Lemma save_content_failure (self : store) (content_id : string)
    (chat_id message_id : Z) (now : string) (w : world) :
  (save_content self content_id chat_id message_id now w).1
    = Raise StorageError ->
  let w' := (save_content self content_id chat_id message_id now w).2 in
  files w' = files w
  \/ (exists (f : file) (m : gmap string json),
        files w !! filepath self = Some f /\ readable f = true
        /\ writable f = true /\ body f = Doc (JObj m)
        /\ disk_full w = true
        /\ files w'
           = <[filepath self :=
                 set_body (Torn (Doc (JObj (<[content_id :=
                             record_of chat_id message_id now]> m)))) f]>
               (files w)).
Proof.
  intros H. cbv zeta.
  destruct (save_content_cases self content_id chat_id message_id now w)
    as [[_ E] | [(f & m & Hf & Hr & Hw & Hb & Hd & _ & E) | (f & m & _ & _ & _ & _ & _ & E)]].
  - now left.
  - right. now exists f, m.
  - rewrite E in H. discriminate H.
Qed.

(** C3, as stated, fails: with one record stored and the device out of
    space, [save_content] raises [StorageError] and the mapping that was
    persisted is gone, the file having been cut to length zero by
    [open(..., 'w')] before the write that the device refused. *)
Lemma save_content_failure_loses_mapping :
  ~ (forall (self : store) (content_id : string) (chat_id message_id : Z)
       (now : string) (w : world),
       (save_content self content_id chat_id message_id now w).1
         = Raise StorageError ->
       mapping_of (filepath self)
         (save_content self content_id chat_id message_id now w).2
       = mapping_of (filepath self) w).
Proof.
  intros H.
  specialize (H Sample.the_store "BBBBBBBBBBB" 7%Z 8%Z "2024-01-02T00:00:00"
                (Sample.stored true)).
  vm_compute in H. specialize (H eq_refl). discriminate H.
Qed.

(** C3, amended. When [save_content] raises [StorageError], it has logged
    the failure, and the files that the program opens by path are exactly
    as before, except in one case: the storage file was read, parsed as a
    mapping and opened for writing, and the device then refused the data.
    In that case the storage file, cut to length zero by the in-place
    rewrite, is left with a proper prefix of the text of the new mapping
    (possibly nothing of it), which does not parse: the mapping that was
    persisted is lost. Every other such file is as before. *)
Theorem save_content_failure_effect (self : store) (content_id : string)
    (chat_id message_id : Z) (now : string) (w : world) :
  (save_content self content_id chat_id message_id now w).1
    = Raise StorageError ->
  let w' := (save_content self content_id chat_id message_id now w).2 in
  (exists e : exn,
     log w' = (log w ++ [(CRITICAL, FailedToSaveContent content_id e)])%list)
  /\ (files w' = files w
      \/ (disk_full w = true
          /\ can_read (filepath self) w = true
          /\ can_write (filepath self) w = true
          /\ (exists m : gmap string json,
                mapping_of (filepath self) w = Some m
                /\ text_at (filepath self) w'
                   = Some (Torn (Doc (JObj (<[content_id :=
                                    record_of chat_id message_id now]> m)))))
          /\ mapping_of (filepath self) w' = None
          /\ forall p : string, p ≠ filepath self ->
               files w' !! p = files w !! p)).
Proof.
  intros H. cbv zeta.
  split; [now apply save_content_failure_logged|].
  destruct (save_content_failure self content_id chat_id message_id now w H)
    as [E | (f & m & Hf & Hr & Hw & Hb & Hd & E)]; [now left|]. right.
  unfold can_read, can_write, mapping_of, text_at. rewrite E, Hf.
  cbn [fmap option_fmap option_map]. rewrite Hb, lookup_insert_eq.
  split; [assumption|]. split; [assumption|]. split; [assumption|].
  split; [now exists m|]. split; [reflexivity|].
  intros p Hp. now apply lookup_insert_ne.
Qed.

Lemma save_content_failure_effect_witness :
  let w := Sample.stored true in
  let r := save_content Sample.the_store "BBBBBBBBBBB" 7 8
             "2024-01-02T00:00:00" w in
  r.1 = Raise StorageError
  /\ (exists e : exn,
        log r.2 = (log w ++ [(CRITICAL, FailedToSaveContent "BBBBBBBBBBB" e)])%list)
  /\ (files r.2 = files w
      \/ (disk_full w = true
          /\ can_read default_path w = true
          /\ can_write default_path w = true
          /\ (exists m : gmap string json,
                mapping_of default_path w = Some m
                /\ text_at default_path r.2
                   = Some (Torn (Doc (JObj (<["BBBBBBBBBBB" :=
                                    record_of 7 8 "2024-01-02T00:00:00"]> m)))))
          /\ mapping_of default_path r.2 = None
          /\ forall p : string, p ≠ default_path ->
               files r.2 !! p = files w !! p)).
Proof.
  cbv zeta. split; [vm_compute; reflexivity|].
  apply (save_content_failure_effect Sample.the_store "BBBBBBBBBBB" 7 8
           "2024-01-02T00:00:00" (Sample.stored true)).
  vm_compute. reflexivity.
Defined.

(** C4, at a storage file that exists, holds a mapping with the record
    asked for, and may not be read: [get_content] raises neither of its two
    typed failures but the [PermissionError] of [open], which its handlers
    for [FileNotFoundError] and [JSONDecodeError] let through;
    [save_content] on the same machine, catching [IOError], raises
    [StorageError]. *)
Theorem get_content_unreadable_escapes :
  (get_content Sample.the_store "AAAAAAAAAAA" Sample.locked).1
    = Raise PermissionError
  /\ (save_content Sample.the_store "AAAAAAAAAAA" 1001 42
        "2024-01-01T00:00:00" Sample.locked).1
     = Raise StorageError.
Proof. split; vm_compute; reflexivity. Qed.

(** *** Making the store object on a missing or unparsable file *)





End StoreFacts.

(* ===================================================================== *)
(** ** The handlers: invariant and round trip                             *)
(* ===================================================================== *)

Module BotFacts.
Import Py Store Bot Inv StoreFacts.
#[local] Open Scope py_scope.

Lemma ingest_inv (src : nat -> byte) (now : string) (chat_id message_id : Z)
    (w : world) :
  store_inv w -> store_inv (ingest src now chat_id message_id w).2.
Proof.
  unfold store_inv, ingest. generalize default_path as path. intros path Hw.
  unfold bind at 1.
  pose proof (ensure_inv {| filepath := path |} w Hw) as H1.
  rewrite <- ContentStore_world in H1.
  destruct (ContentStore path w) as [[st|e] w1] eqn:E; [|exact H1].
  apply ContentStore_self in E as ->. cbn [snd] in H1.
  unfold bind.
  pose proof (save_content_inv {| filepath := path |} src chat_id message_id
                now w1 H1) as H2.
  destruct (save_content _ _ _ _ _ w1) as [[[]|e] w2]; exact H2.
Qed.

Lemma resolve_inv (content_id : string) (w : world) :
  store_inv w -> store_inv (resolve content_id w).2.
Proof.
  unfold store_inv, resolve. generalize default_path as path. intros path Hw.
  destruct (Ident.is_valid_content_id content_id); [|exact Hw]. cbn [negb].
  unfold bind at 1.
  pose proof (ensure_inv {| filepath := path |} w Hw) as H1.
  rewrite <- ContentStore_world in H1.
  destruct (ContentStore path w) as [[st|e] w1] eqn:E; [|exact H1].
  cbn [snd] in H1. unfold bind.
  pose proof (get_content_inv st path content_id w1 H1) as H2.
  destruct (get_content st content_id w1) as [[v|e] w2]; exact H2.
Qed.

(** *** The handlers change the machine only through [ingest] and [resolve] *)

Lemma handle_private_group_message_world (private_channel_id : Z)
    (src : nat -> byte) (now : string) (chat_id message_id : Z) (w : world) :
  let w' := (handle_private_group_message private_channel_id src now
               chat_id message_id w).2 in
  files w' = files w \/ files w' = files (ingest src now chat_id message_id w).2.
Proof.
  cbv zeta. unfold handle_private_group_message.
  destruct (negb (chat_id =? private_channel_id)%Z); [now left|]. right.
  unfold try_except, bind at 1.
  destruct (ingest src now chat_id message_id w) as [[id|e] w1];
    [reflexivity | destruct e; reflexivity].
Qed.

Lemma handle_start_command_world (chat_type : string) (args : list string)
    (w : world) :
  let w' := (handle_start_command chat_type args w).2 in
  files w' = files w
  \/ exists content_id : string, files w' = files (resolve content_id w).2.
Proof.
  cbv zeta. unfold handle_start_command.
  destruct (String.eqb chat_type "group" || String.eqb chat_type "supergroup");
    [now left|].
  destruct (String.eqb chat_type "channel"); [now left|].
  destruct args as [|content_id args]; [now left|]. right. exists content_id.
  unfold try_except, bind at 1.
  destruct (resolve content_id w) as [[[|info]|e] w1];
    [reflexivity | | destruct e; reflexivity].
  unfold bind, getitem, ret, raise, logger.
  destruct info as [| | | | | |m]; try reflexivity.
  destruct (m !! "chat_id"); [|reflexivity].
  destruct (m !! "message_id"); reflexivity.
Qed.

Lemma initial_inv (w : world) : initial w -> store_inv w.
Proof.
  unfold store_inv, initial. generalize default_path as path.
  intros path [H|H] m Hm.
  - unfold mapping_of in Hm. rewrite H in Hm. discriminate.
  - rewrite H in Hm. apply (inj Some) in Hm as <-. apply keys_valid_empty.
Qed.

Lemma reachable_inv (w : world) : reachable w -> store_inv w.
Proof.
  induction 1 as [w H | w pc src now c m _ IH | w ct args _ IH].
  - now apply initial_inv.
  - destruct (handle_private_group_message_world pc src now c m w) as [E | E];
      apply (store_inv_files _ _ _ E); [assumption | now apply ingest_inv].
  - destruct (handle_start_command_world ct args w) as [E | [id E]];
      apply (store_inv_files _ _ _ E); [assumption | now apply resolve_inv].
Qed.

(** C8. In every state that the handlers can reach from a store that is
    absent or holds the empty mapping, every key of the persisted mapping
    is a valid identifier: it is in the grammar and the validator accepts
    it. Both handlers, whatever their arguments and outcome, keep this. *)
Theorem store_keys_valid (w : world) : reachable w -> store_inv w.
Proof. apply reachable_inv. Qed.

Lemma store_keys_valid_witness :
  let w := (handle_private_group_message 1001 Sample.zeros
              "2024-01-01T00:00:00" 1001 42 Sample.fresh).2 in
  reachable w /\ store_inv w.
Proof.
  cbv zeta.
  assert (R : reachable (handle_private_group_message 1001 Sample.zeros
                           "2024-01-01T00:00:00" 1001 42 Sample.fresh).2).
  { apply reach_message, reach_initial. left. vm_compute. reflexivity. }
  split; [exact R | apply (store_keys_valid _ R)].
Defined.

(** *** [resolve] and [ingest] *)

(** An identifier that the validator rejects stops [resolve] before any
    store object is made: the machine, its log of opens included, is the
    one before the call. *)
Lemma resolve_rejected (content_id : string) (w : world) :
  Ident.is_valid_content_id content_id = false ->
  resolve content_id w = (Return InvalidFormat, w).
Proof. intros H. unfold resolve. rewrite H. reflexivity. Qed.

Lemma ingest_returns (src : nat -> byte) (now : string) (chat_id message_id : Z)
    (w w' : world) (content_id : string) :
  ingest src now chat_id message_id w = (Return content_id, w') ->
  content_id = Ident.generate_unique_id src
  /\ exists w1 : world,
       ContentStore default_path w = (Return {| filepath := default_path |}, w1)
       /\ save_content {| filepath := default_path |} content_id chat_id
            message_id now w1 = (Return tt, w').
Proof.
  unfold ingest. generalize default_path as path. intros path.
  unfold bind at 1.
  destruct (ContentStore path w) as [[st|e] w1] eqn:E; [|discriminate].
  pose proof (ContentStore_self _ _ _ _ E) as ->.
  unfold bind, ret.
  destruct (save_content _ _ _ _ _ w1) as [[[]|e] w2] eqn:E2; [|discriminate].
  intros H.
  assert (H1 : Ident.generate_unique_id src = content_id) by congruence.
  assert (H2 : w2 = w') by congruence.
  subst. split; [reflexivity|].
  exists w1. split; [reflexivity | assumption].
Qed.

(** On a device that takes data, with the storage file missing (and the
    directory open to new files) or holding a mapping (and open to reading
    and writing), [ingest] does return the identifier it generated. *)
Lemma ingest_succeeds (src : nat -> byte) (now : string)
    (chat_id message_id : Z) (w : world) :
  disk_full w = false -> can_read default_path w = true ->
  can_write default_path w = true ->
  (text_at default_path w = None
   \/ exists m, mapping_of default_path w = Some m) ->
  exists w' : world,
    ingest src now chat_id message_id w
    = (Return (Ident.generate_unique_id src), w').
Proof.
  unfold ingest. generalize default_path as path.
  intros path Hd Hcr Hcw Hcase. set (self := {| filepath := path |}).
  unfold can_read, can_write in Hcr, Hcw.
  unfold bind at 1. rewrite ContentStore_eq. fold self.
  assert (Hgo : exists (w1 : world) (f : file) (m : gmap string json),
             _ensure_file_exists self w = (Return tt, w1)
             /\ files w1 !! filepath self = Some f /\ readable f = true
             /\ writable f = true /\ body f = Doc (JObj m)
             /\ disk_full w1 = false).
  { destruct Hcase as [Hnone | [m Hm]].
    - pose proof (text_at_None _ _ Hnone) as Hf. rewrite Hf in Hcw.
      destruct (ensure_creates self w Hf Hcw Hd) as (w1 & E & Hfiles & Hd1).
      exists w1, (File true true (Doc (JObj ∅))), ∅.
      rewrite Hfiles, lookup_insert_eq. now repeat split.
    - unfold mapping_of in Hm.
      destruct (text_at path w) as [[[| | | | | |m0]| | |]|] eqn:Ht;
        try discriminate Hm.
      destruct (text_at_Some _ _ _ Ht) as (f & Hf & Hb).
      rewrite Hf in Hcr, Hcw.
      exists (add_event (OpenRead (filepath self)) w), f, m0.
      rewrite (ensure_parsable self w f _ Hf Hcr Hb). now repeat split. }
  destruct Hgo as (w1 & f & m & -> & Hf & Hr & Hw & Hb & Hd1).
  pose proof (save_content_ok self (Ident.generate_unique_id src) chat_id
                message_id now w1 f m Hf Hr Hw Hb Hd1) as Hs.
  unfold bind, ret.
  destruct (save_content self _ _ _ _ w1) as [[[]|e] w2];
    [now exists w2 | discriminate Hs].
Qed.

Lemma record_of_fields (chat_id message_id : Z) (now : string) (w : world) :
  getitem (record_of chat_id message_id now) "chat_id" w
    = (Return (JInt chat_id), w)
  /\ getitem (record_of chat_id message_id now) "message_id" w
     = (Return (JInt message_id), w).
Proof. split; vm_compute; reflexivity. Qed.

Lemma roundtrip (src : nat -> byte) (now : string) (chat_id message_id : Z)
    (w w' : world) (content_id : string) :
  ingest src now chat_id message_id w = (Return content_id, w') ->
  exists w'' : world,
    resolve content_id w'
    = (Return (Found (record_of chat_id message_id now)), w'').
Proof.
  intros H. apply ingest_returns in H as (-> & w1 & _ & H).
  unfold resolve.
  rewrite (IdentFacts.grammar_is_valid _
             (proj2 (IdentFacts.generate_unique_id_grammar src))).
  cbn [negb]. revert H. generalize default_path as path. intros path H.
  set (self := {| filepath := path |}) in *.
  destruct (save_content_returns self _ _ _ _ _ _ H)
    as (f & m & Hf & Hr & _ & Hb & _ & E & _).
  set (rec := record_of chat_id message_id now) in *.
  set (m' := <[Ident.generate_unique_id src := rec]> m) in *.
  assert (Hf' : files w' !! filepath self = Some (set_body (Doc (JObj m')) f)).
  { rewrite E. apply lookup_insert_eq. }
  unfold bind at 1. rewrite ContentStore_eq. fold self.
  rewrite (ensure_parsable self w' _ (JObj m') Hf' Hr eq_refl).
  unfold bind.
  rewrite (get_content_found self (Ident.generate_unique_id src) _
             (set_body (Doc (JObj m')) f) m' rec);
    [eexists; reflexivity | | assumption | reflexivity | apply lookup_insert_eq].
  cbn [files add_event]. exact Hf'.
Qed.

(** C1. Whatever the two integers, the entropy, the clock and the machine:
    when [ingest] returns an identifier, [resolve] on that identifier then
    returns the record saved for it, whose [chat_id] and [message_id] are
    exactly the two integers. *)
Theorem ingest_resolve_roundtrip (src : nat -> byte) (now : string)
    (chat_id message_id : Z) (w w' : world) (content_id : string) :
  ingest src now chat_id message_id w = (Return content_id, w') ->
  exists (content_info : json) (w'' : world),
    resolve content_id w' = (Return (Found content_info), w'')
    /\ getitem content_info "chat_id" w'' = (Return (JInt chat_id), w'')
    /\ getitem content_info "message_id" w'' = (Return (JInt message_id), w'').
Proof.
  intros H. destruct (roundtrip _ _ _ _ _ _ _ H) as [w'' R].
  exists (record_of chat_id message_id now), w''.
  split; [exact R | apply record_of_fields].
Qed.

Lemma ingest_resolve_roundtrip_witness :
  exists (content_id : string) (w' : world),
    ingest Sample.zeros "2024-01-01T00:00:00" 1001 42 Sample.fresh
      = (Return content_id, w')
    /\ exists (content_info : json) (w'' : world),
         resolve content_id w' = (Return (Found content_info), w'')
         /\ getitem content_info "chat_id" w'' = (Return (JInt 1001), w'')
         /\ getitem content_info "message_id" w'' = (Return (JInt 42), w'').
Proof.
  eexists. eexists. split; [vm_compute; reflexivity|].
  apply (ingest_resolve_roundtrip Sample.zeros "2024-01-01T00:00:00" 1001 42
           Sample.fresh).
  vm_compute. reflexivity.
Defined.

(** C5, at the identifier ["AAAAAAAA\n"], which is outside the grammar, on
    a machine with no storage file: [resolve] does not answer
    [InvalidFormat]; it goes on to the store, which is opened, created and
    read, and ends in [ContentNotFoundError]. The handler accordingly
    answers that the content is not available, not that the link is
    malformed. *)
Theorem resolve_trailing_newline_reaches_store :
  Ident.grammar Sample.newline_id = false
  /\ (resolve Sample.newline_id Sample.fresh).1 = Raise ContentNotFoundError
  /\ trace (resolve Sample.newline_id Sample.fresh).2
     = [OpenRead default_path; OpenWrite default_path; OpenRead default_path]
  /\ text_at default_path (resolve Sample.newline_id Sample.fresh).2
     = Some (Doc (JObj ∅))
  /\ (handle_start_command "private" [Sample.newline_id] Sample.fresh).1
     = Return NotAvailable.
Proof. repeat split; vm_compute; reflexivity. Qed.

End BotFacts.

(* ===================================================================== *)
(** ** More on identifiers                                                *)
(* ===================================================================== *)

Module IdentMore.
Import Ident IdentFacts.

Lemma append_last_inj (s1 s2 : string) (c1 c2 : ascii) :
  s1 ++ String c1 EmptyString = s2 ++ String c2 EmptyString ->
  s1 = s2 /\ c1 = c2.
Proof.
  revert s2. induction s1 as [|a s1 IH]; intros [|b s2] H.
  - change (String c1 EmptyString = String c2 EmptyString) in H.
    split; congruence.
  - change (String c1 EmptyString = String b (s2 ++ String c2 EmptyString)) in H.
    destruct s2; discriminate H.
  - change (String a (s1 ++ String c1 EmptyString) = String c2 EmptyString) in H.
    destruct s1; discriminate H.
  - change (String a (s1 ++ String c1 EmptyString)
            = String b (s2 ++ String c2 EmptyString)) in H.
    assert (Ht : s1 ++ String c1 EmptyString = s2 ++ String c2 EmptyString)
      by congruence.
    destruct (IH _ Ht) as [-> ->]. split; congruence.
Qed.

(** X1. [is_valid_content_id] returns [True] for exactly two kinds of
    string: those of the grammar (at least 8 characters, all in
    [[A-Za-z0-9_-]]), and those of the grammar followed by one newline. *)
Theorem is_valid_content_id_exact (s : string) :
  is_valid_content_id s = true <->
  grammar s = true \/
  exists body, s = body ++ String newline EmptyString /\ grammar body = true.
Proof.
  split.
  - intros H. apply is_valid_content_id_iff, H.
  - intros H. apply is_valid_content_id_iff, H.
Qed.

Lemma short_is_invalid (s : string) :
  (String.length s < 8)%nat -> is_valid_content_id s = false.
Proof.
  intros Hlen. destruct (is_valid_content_id s) eqn:E; [|reflexivity].
  apply is_valid_content_id_iff in E as [G | (body & -> & G)];
    unfold grammar in G; apply andb_true_iff in G as [G _];
    apply Nat.leb_le in G.
  - lia.
  - rewrite StoreFacts.length_append in Hlen. cbn in Hlen. lia.
Qed.

(** X2. A string of fewer than 8 characters is rejected, whatever its
    characters. *)
Theorem is_valid_content_id_short (s : string) :
  (String.length s < 8)%nat -> is_valid_content_id s = false.
Proof. apply short_is_invalid. Qed.

Lemma is_valid_content_id_short_witness :
  (String.length "short" < 8)%nat /\ is_valid_content_id "short" = false.
Proof.
  split; [cbn; lia | apply (is_valid_content_id_short "short"); cbn; lia].
Defined.

(** X3. On a string whose last character is not a newline the validator
    and the grammar agree: such a string is accepted exactly when it has
    at least 8 characters, all of them in [[A-Za-z0-9_-]]. *)
Theorem is_valid_content_id_last_not_newline (s : string) (c : ascii) :
  Ascii.eqb c newline = false ->
  is_valid_content_id (s ++ String c EmptyString)
  = grammar (s ++ String c EmptyString).
Proof.
  intros Hc. destruct (grammar (s ++ String c EmptyString)) eqn:G.
  - now apply grammar_is_valid.
  - destruct (is_valid_content_id (s ++ String c EmptyString)) eqn:E;
      [|reflexivity].
    apply is_valid_content_id_iff in E as [G' | (body & Hs & _)].
    + congruence.
    + apply append_last_inj in Hs as [_ ->].
      rewrite Ascii.eqb_refl in Hc. discriminate Hc.
Qed.

Lemma is_valid_content_id_last_not_newline_witness :
  Ascii.eqb " "%char newline = false
  /\ is_valid_content_id ("AAAAAAAA" ++ String " "%char EmptyString)
     = grammar ("AAAAAAAA" ++ String " "%char EmptyString).
Proof.
  split; [reflexivity|].
  apply (is_valid_content_id_last_not_newline "AAAAAAAA" " "%char).
  reflexivity.
Defined.

(** *** [token_urlsafe] for every number of bytes *)

Lemma rstrip_pads (c : ascii) (k : nat) : rstrip c (repeat c k) = [].
Proof.
  induction k as [|k IH]; [reflexivity|].
  unfold rstrip in *. cbn [repeat fold_right]. rewrite IH. cbn [is_nil andb].
  now rewrite Ascii.eqb_refl.
Qed.

Lemma rstrip_body (c : ascii) (body : list ascii) (k : nat) :
  forallb (fun x => negb (Ascii.eqb x c)) body = true ->
  rstrip c (body ++ repeat c k)%list = body.
Proof.
  intros H. induction body as [|x body IH].
  - apply rstrip_pads.
  - cbn [forallb] in H. apply andb_true_iff in H as [Hx Hb].
    apply negb_true_iff in Hx.
    change (rstrip c ((x :: body) ++ repeat c k)%list)
      with (if is_nil (rstrip c (body ++ repeat c k)%list) && Ascii.eqb x c
            then [] else x :: rstrip c (body ++ repeat c k)%list).
    rewrite Hx, andb_false_r, (IH Hb). reflexivity.
Qed.

Lemma list_ind3 {A} (P : list A -> Prop) :
  P [] -> (forall a, P [a]) -> (forall a b, P [a; b]) ->
  (forall a b c l, P l -> P (a :: b :: c :: l)) ->
  forall l, P l.
Proof.
  intros H0 H1 H2 H3.
  fix IH 1. intros [|a [|b [|c l]]];
    [exact H0 | apply H1 | apply H2 | apply H3, IH].
Qed.

(** The encoding is a run of class characters followed by at most two
    pads; the run has [ceil(4n/3)] characters. *)
Lemma urlsafe_b64encode_shape (data : list byte) :
  exists (body : list ascii) (k : nat),
    urlsafe_b64encode data = (body ++ repeat pad k)%list
    /\ forallb in_class body = true
    /\ List.length body = ((4 * List.length data + 2) / 3)%nat.
Proof.
  unfold urlsafe_b64encode.
  induction data as [|a|a b|a b c l IH] using list_ind3.
  - exists [], 0%nat. repeat split.
  - eexists [_; _], 2%nat. cbn [b64encode List.map app repeat forallb].
    rewrite !digit_in_class. repeat split.
  - eexists [_; _; _], 1%nat. cbn [b64encode List.map app repeat forallb].
    rewrite !digit_in_class. repeat split.
  - destruct IH as (body & k & E & Hall & Hlen).
    eexists (_ :: _ :: _ :: _ :: body), k.
    cbn [b64encode List.map app forallb]. rewrite E, !digit_in_class, Hall.
    split; [reflexivity|]. split; [reflexivity|].
    cbn [List.length]. rewrite Hlen.
    replace (4 * S (S (S (List.length l))) + 2)%nat
      with (4 * List.length l + 2 + 4 * 3)%nat by lia.
    rewrite Nat.div_add by discriminate. lia.
Qed.

Lemma in_class_all_not_pad (body : list ascii) :
  forallb in_class body = true ->
  forallb (fun x => negb (Ascii.eqb x pad)) body = true.
Proof.
  induction body as [|x body IH]; [reflexivity|]. cbn [forallb].
  intros H. apply andb_true_iff in H as [Hx Hb].
  now rewrite (in_class_not_pad _ Hx), IH.
Qed.

(** X4. For every number of bytes asked for, [token_urlsafe] returns a
    string of [ceil(4n/3)] characters, all of them in [[A-Za-z0-9_-]]: the
    padding is stripped completely and nothing else is. For the 8 bytes of
    [generate_unique_id] that is exactly 11 characters. *)
Theorem token_urlsafe_shape (src : nat -> byte) (nbytes : nat) :
  String.length (token_urlsafe src nbytes) = ((4 * nbytes + 2) / 3)%nat
  /\ forallb in_class (list_ascii_of_string (token_urlsafe src nbytes)) = true
  /\ String.length (generate_unique_id src) = 11%nat.
Proof.
  assert (G : forall n,
             String.length (token_urlsafe src n) = ((4 * n + 2) / 3)%nat
             /\ forallb in_class (list_ascii_of_string (token_urlsafe src n))
                = true).
  { intros n. unfold token_urlsafe.
    destruct (urlsafe_b64encode_shape (token_bytes src n))
      as (body & k & -> & Hall & Hlen).
    rewrite (rstrip_body _ _ _ (in_class_all_not_pad _ Hall)).
    rewrite length_string_of_list_ascii, list_ascii_of_string_of_list_ascii.
    split; [|exact Hall].
    rewrite Hlen. unfold token_bytes. now rewrite length_map, length_seq. }
  split; [apply G|]. split; [apply G|].
  unfold generate_unique_id. now rewrite (proj1 (G 8%nat)).
Qed.

End IdentMore.

(** *** The identifier determines the random bytes *)

Module IdentInj.
Import Ident IdentFacts.
#[local] Open Scope N_scope.

(** Checking a property of two bytes by running through all of them. *)
Lemma forall_below (P : N -> bool) (bound : nat) :
  forallb P (List.map N.of_nat (seq 0 bound)) = true ->
  forall x : N, x < N.of_nat bound -> P x = true.
Proof.
  intros H x Hx. rewrite forallb_forall in H. apply H.
  apply in_map_iff. exists (N.to_nat x). split; [apply N2Nat.id|].
  apply in_seq. lia.
Qed.

Lemma forall_below2 (P : N -> N -> bool) (bound : nat) :
  forallb (fun x => forallb (P x) (List.map N.of_nat (seq 0 bound)))
          (List.map N.of_nat (seq 0 bound)) = true ->
  forall x y : N, x < N.of_nat bound -> y < N.of_nat bound -> P x y = true.
Proof.
  intros H x y Hx Hy.
  apply (forall_below (P x) bound); [|exact Hy].
  apply (forall_below (fun x => forallb (P x) _) bound H x Hx).
Qed.

(** The 64 translated digits are pairwise different. *)
Lemma digit_inj (i j : N) :
  urlsafe_translate (b64_digit i) = urlsafe_translate (b64_digit j) ->
  N.land i 63 = N.land j 63.
Proof.
  intros H.
  pose proof (forall_below2
    (fun x y => implb (Ascii.eqb (urlsafe_translate (b64_digit x))
                                 (urlsafe_translate (b64_digit y)))
                      (N.land x 63 =? N.land y 63)) 64 eq_refl
    (N.land i 63) (N.land j 63) (land63_lt i) (land63_lt j)) as C.
  cbv beta in C. unfold b64_digit in C, H.
  assert (I : forall k, N.land (N.land k 63) 63 = N.land k 63).
  { intros k. rewrite <- N.land_assoc. reflexivity. }
  rewrite !I in C. rewrite H, Ascii.eqb_refl in C. cbn [implb] in C.
  now apply N.eqb_eq in C.
Qed.

Lemma land63_mod (x : N) : N.land x 63 = x mod 64.
Proof. change 63 with (N.ones 6). now rewrite N.land_ones. Qed.

(** Shifted bytes do not overlap, so [|] adds them up. *)
Lemma group_sum (x y z : N) :
  x < 256 -> y < 256 -> z < 256 ->
  N.lor (N.lor (N.shiftl x 16) (N.shiftl y 8)) z = x * 65536 + y * 256 + z.
Proof.
  intros Hx Hy Hz.
  assert (D1 : N.land (N.shiftl x 16) (N.shiftl y 8) = 0).
  { apply N.eqb_eq.
    apply (forall_below2
             (fun x y => N.land (N.shiftl x 16) (N.shiftl y 8) =? 0) 256);
      [vm_compute; reflexivity | exact Hx | exact Hy]. }
  assert (D2 : N.land (N.shiftl x 16) z = 0).
  { apply N.eqb_eq.
    apply (forall_below2 (fun x z => N.land (N.shiftl x 16) z =? 0) 256);
      [vm_compute; reflexivity | exact Hx | exact Hz]. }
  assert (D3 : N.land (N.shiftl y 8) z = 0).
  { apply N.eqb_eq.
    apply (forall_below2 (fun y z => N.land (N.shiftl y 8) z =? 0) 256);
      [vm_compute; reflexivity | exact Hy | exact Hz]. }
  assert (D4 : N.land (N.lor (N.shiftl x 16) (N.shiftl y 8)) z = 0).
  { rewrite N.land_lor_distr_l, D2, D3. reflexivity. }
  rewrite <- (N.lxor_lor _ _ D4), <- (N.add_nocarry_lxor _ _ D4).
  rewrite <- (N.lxor_lor _ _ D1), <- (N.add_nocarry_lxor _ _ D1).
  rewrite !N.shiftl_mul_pow2. reflexivity.
Qed.

Lemma to_N_lt (b : byte) : Byte.to_N b < 256.
Proof. pose proof (Byte.to_N_bounded b). lia. Qed.

Lemma to_N_inj (a b : byte) : Byte.to_N a = Byte.to_N b -> a = b.
Proof.
  intros H. pose proof (Byte.of_to_N a) as Ha. rewrite H, Byte.of_to_N in Ha.
  congruence.
Qed.

(** A number below [2^24] is the sum of its four 6-bit digits. *)
Lemma digits_sum (n : N) :
  n < 16777216 ->
  n = N.land (N.shiftr n 18) 63 * 262144 + N.land (N.shiftr n 12) 63 * 4096
      + N.land (N.shiftr n 6) 63 * 64 + N.land n 63.
Proof.
  intros Hn. rewrite !land63_mod, !N.shiftr_div_pow2.
  change (2 ^ 18) with (64 * 64 * 64). change (2 ^ 12) with (64 * 64).
  change (2 ^ 6) with 64.
  rewrite <- !N.Div0.div_div.
  pose proof (N.div_mod n 64 ltac:(discriminate)) as E1.
  pose proof (N.div_mod (n / 64) 64 ltac:(discriminate)) as E2.
  pose proof (N.div_mod (n / 64 / 64) 64 ltac:(discriminate)) as E3.
  assert (Hq : n / 64 / 64 / 64 < 64).
  { rewrite !N.Div0.div_div.
    apply N.Div0.div_lt_upper_bound. exact Hn. }
  rewrite (N.mod_small _ _ Hq).
  pose proof (N.mod_small _ _ Hq) as E4. lia.
Qed.

Lemma group_lt (x y z : N) :
  x < 256 -> y < 256 -> z < 256 -> x * 65536 + y * 256 + z < 16777216.
Proof. lia. Qed.

Lemma digits_inj (n n' : N) :
  n < 16777216 -> n' < 16777216 ->
  N.land (N.shiftr n 18) 63 = N.land (N.shiftr n' 18) 63 ->
  N.land (N.shiftr n 12) 63 = N.land (N.shiftr n' 12) 63 ->
  N.land (N.shiftr n 6) 63 = N.land (N.shiftr n' 6) 63 ->
  N.land n 63 = N.land n' 63 ->
  n = n'.
Proof.
  intros Hn Hn' E1 E2 E3 E4.
  rewrite (digits_sum n Hn), (digits_sum n' Hn'), E1, E2, E3, E4.
  reflexivity.
Qed.

(** Four digits give back the three bytes of a full group. *)
Lemma group3_inj (a b c a' b' c' : byte) :
  let n := N.lor (N.lor (N.shiftl (Byte.to_N a) 16) (N.shiftl (Byte.to_N b) 8))
                 (Byte.to_N c) in
  let n' := N.lor (N.lor (N.shiftl (Byte.to_N a') 16)
                         (N.shiftl (Byte.to_N b') 8)) (Byte.to_N c') in
  N.land (N.shiftr n 18) 63 = N.land (N.shiftr n' 18) 63 ->
  N.land (N.shiftr n 12) 63 = N.land (N.shiftr n' 12) 63 ->
  N.land (N.shiftr n 6) 63 = N.land (N.shiftr n' 6) 63 ->
  N.land n 63 = N.land n' 63 ->
  a = a' /\ b = b' /\ c = c'.
Proof.
  cbv zeta.
  pose proof (to_N_lt a) as Ha. pose proof (to_N_lt b) as Hb.
  pose proof (to_N_lt c) as Hc. pose proof (to_N_lt a') as Ha'.
  pose proof (to_N_lt b') as Hb'. pose proof (to_N_lt c') as Hc'.
  rewrite !group_sum by assumption.
  intros E1 E2 E3 E4.
  pose proof (digits_inj _ _ (group_lt _ _ _ Ha Hb Hc)
                (group_lt _ _ _ Ha' Hb' Hc') E1 E2 E3 E4) as E.
  assert (Byte.to_N a = Byte.to_N a' /\ Byte.to_N b = Byte.to_N b'
          /\ Byte.to_N c = Byte.to_N c') as (Ea & Eb & Ec) by lia.
  repeat split; now apply to_N_inj.
Qed.

(** Three digits give back the two bytes of the short last group. *)
Lemma group2_inj (a b a' b' : byte) :
  let n := N.lor (N.shiftl (Byte.to_N a) 16) (N.shiftl (Byte.to_N b) 8) in
  let n' := N.lor (N.shiftl (Byte.to_N a') 16) (N.shiftl (Byte.to_N b') 8) in
  N.land (N.shiftr n 18) 63 = N.land (N.shiftr n' 18) 63 ->
  N.land (N.shiftr n 12) 63 = N.land (N.shiftr n' 12) 63 ->
  N.land (N.shiftr n 6) 63 = N.land (N.shiftr n' 6) 63 ->
  a = a' /\ b = b'.
Proof.
  cbv zeta. intros E1 E2 E3.
  assert (Z : forall x y : byte,
             N.lor (N.shiftl (Byte.to_N x) 16) (N.shiftl (Byte.to_N y) 8)
             = N.lor (N.lor (N.shiftl (Byte.to_N x) 16)
                            (N.shiftl (Byte.to_N y) 8)) (Byte.to_N x00)).
  { intros x y. cbn [Byte.to_N]. now rewrite N.lor_0_r. }
  rewrite (Z a b), (Z a' b') in E1, E2, E3.
  destruct (group3_inj a b x00 a' b' x00 E1 E2 E3) as (-> & -> & _);
    [|now split].
  rewrite !land63_mod.
  pose proof (to_N_lt a) as Ha. pose proof (to_N_lt b) as Hb.
  pose proof (to_N_lt a') as Ha'. pose proof (to_N_lt b') as Hb'.
  rewrite !group_sum by (assumption || reflexivity).
  cbn [Byte.to_N]. rewrite !N.add_0_r.
  replace (Byte.to_N a * 65536 + Byte.to_N b * 256)
    with ((Byte.to_N a * 1024 + Byte.to_N b * 4) * 64) by lia.
  replace (Byte.to_N a' * 65536 + Byte.to_N b' * 256)
    with ((Byte.to_N a' * 1024 + Byte.to_N b' * 4) * 64) by lia.
  now rewrite !N.Div0.mod_mul.
Qed.

(** The identifier, digit by digit. *)
Lemma generate_unique_id_chars (src : nat -> byte) :
  generate_unique_id src
  = string_of_list_ascii
      (List.map urlsafe_translate
         (firstn 11 (b64encode (token_bytes src 8)))).
Proof.
  unfold generate_unique_id, token_urlsafe, token_bytes, urlsafe_b64encode.
  cbn [seq List.map b64encode firstn].
  cbv [rstrip fold_right is_nil andb].
  change (Ascii.eqb (urlsafe_translate pad) pad) with true. cbv iota.
  rewrite (in_class_not_pad _ (digit_in_class _)). reflexivity.
Qed.

Lemma string_of_list_ascii_inj (l l' : list ascii) :
  string_of_list_ascii l = string_of_list_ascii l' -> l = l'.
Proof.
  intros H. apply (f_equal list_ascii_of_string) in H.
  now rewrite !list_ascii_of_string_of_list_ascii in H.
Qed.

(** X5. Two identifiers are equal exactly when the 8 bytes drawn from the
    entropy are equal: the encoding loses nothing, so identifiers collide
    only when the random bytes do. *)
Theorem generate_unique_id_injective (src src' : nat -> byte) :
  generate_unique_id src = generate_unique_id src'
  <-> token_bytes src 8 = token_bytes src' 8.
Proof.
  split.
  - rewrite !generate_unique_id_chars. intros H.
    apply string_of_list_ascii_inj in H. unfold token_bytes in *.
    cbn [seq List.map b64encode firstn] in H.
    injection H as H0 H1 H2 H3 H4 H5 H6 H7 H8 H9 H10.
    apply digit_inj in H0, H1, H2, H3, H4, H5, H6, H7, H8, H9, H10.
    destruct (group3_inj _ _ _ _ _ _ H0 H1 H2 H3) as (E0 & E1 & E2).
    destruct (group3_inj _ _ _ _ _ _ H4 H5 H6 H7) as (E3 & E4 & E5).
    destruct (group2_inj _ _ _ _ H8 H9 H10) as (E6 & E7).
    cbn [seq List.map]. congruence.
  - intros H. unfold generate_unique_id, token_urlsafe. now rewrite H.
Qed.
End IdentInj.

(* ===================================================================== *)
(** ** More on the store                                                  *)
(* ===================================================================== *)

Module StoreMore.
Import Py Store Bot Inv Shape StoreFacts.
#[local] Open Scope py_scope.

(** *** [get_content] *)

Lemma get_content_inversion (self : store) (content_id : string)
    (w w' : world) (v : json) :
  get_content self content_id w = (Return v, w') ->
  exists (f : file) (m : gmap string json),
    files w !! filepath self = Some f /\ readable f = true
    /\ body f = Doc (JObj m) /\ m !! content_id = Some v
    /\ w' = add_event (OpenRead (filepath self)) w.
Proof.
  get_cases; intros H; try discriminate H.
  eexists _, _. split; [reflexivity|]. split; [assumption|].
  split; [eassumption|]. split; congruence.
Qed.

(** X6. [get_content] returns only what is stored: when it returns a
    value, the storage file is readable, parses to a mapping, and the
    value is the entry of that mapping at the identifier asked for. *)
Theorem get_content_returns_stored (self : store) (content_id : string)
    (w w' : world) (v : json) :
  get_content self content_id w = (Return v, w') ->
  can_read (filepath self) w = true
  /\ exists m : gmap string json,
       mapping_of (filepath self) w = Some m /\ m !! content_id = Some v.
Proof.
  intros H.
  destruct (get_content_inversion _ _ _ _ _ H) as (f & m & Hf & Hr & Hb & Hv & _).
  unfold can_read, mapping_of, text_at. rewrite Hf.
  cbn [fmap option_fmap option_map]. rewrite Hb.
  split; [exact Hr | now exists m].
Qed.

Lemma get_content_returns_stored_witness :
  exists (v : json) (w' : world),
    get_content Sample.the_store "AAAAAAAAAAA" (Sample.stored false)
      = (Return v, w')
    /\ can_read default_path (Sample.stored false) = true
    /\ exists m : gmap string json,
         mapping_of default_path (Sample.stored false) = Some m
         /\ m !! "AAAAAAAAAAA" = Some v.
Proof.
  eexists. eexists. split; [vm_compute; reflexivity|].
  eapply (get_content_returns_stored Sample.the_store "AAAAAAAAAAA"
            (Sample.stored false)).
  vm_compute. reflexivity.
Defined.

Lemma get_content_on_mapping (self : store) (content_id : string) (w : world)
    (m : gmap string json) :
  can_read (filepath self) w = true ->
  mapping_of (filepath self) w = Some m ->
  get_content self content_id w
  = (match m !! content_id with
     | Some v => Return v
     | None => Raise ContentNotFoundError
     end, add_event (OpenRead (filepath self)) w).
Proof.
  unfold can_read. intros Hr Hm.
  destruct (text_at_Some _ _ _ (mapping_text _ _ _ Hm)) as (f & Hf & Hb).
  rewrite Hf in Hr.
  destruct (m !! content_id) as [v|] eqn:Hv.
  - now apply (get_content_found self content_id w f m v).
  - now apply (get_content_absent self content_id w f m).
Qed.

(** X7. On a readable storage file that holds a mapping, [get_content]
    returns the entry at the identifier when there is one and raises
    [ContentNotFoundError] when there is none; it makes exactly one
    [open], for reading. *)
Theorem get_content_lookup (self : store) (content_id : string) (w : world)
    (m : gmap string json) :
  can_read (filepath self) w = true ->
  mapping_of (filepath self) w = Some m ->
  get_content self content_id w
  = (match m !! content_id with
     | Some v => Return v
     | None => Raise ContentNotFoundError
     end, add_event (OpenRead (filepath self)) w).
Proof. apply get_content_on_mapping. Qed.

Lemma get_content_lookup_witness :
  get_content Sample.the_store "BBBBBBBBBBB" (Sample.stored false)
  = (match Sample.one_record !! "BBBBBBBBBBB" with
     | Some v => Return v
     | None => Raise ContentNotFoundError
     end, add_event (OpenRead default_path) (Sample.stored false)).
Proof.
  apply (get_content_lookup Sample.the_store "BBBBBBBBBBB"
           (Sample.stored false) Sample.one_record);
    vm_compute; reflexivity.
Defined.

Lemma get_content_storage_error_cases (self : store) (content_id : string)
    (w : world) :
  (get_content self content_id w).1 = Raise StorageError
  <-> text_at (filepath self) w = None
      \/ (can_read (filepath self) w = true
          /\ exists c : content,
               text_at (filepath self) w = Some c
               /\ loads c = Raise JSONDecodeError).
Proof.
  get_cases;
    (split;
     [ first [ discriminate
             | intros _; left; reflexivity
             | intros _; right; split; [reflexivity|];
               eexists; split; reflexivity ]
     | first [ reflexivity
             | intros [H | [H1 (c & H2 & H3)]];
               first [ discriminate H | discriminate H1
                     | injection H2 as <-; discriminate H3 ] ] ]).
Qed.

(** X8. [get_content] raises [StorageError] in exactly two situations:
    the storage file is missing, or it can be read and [json.load] rejects
    its text with [JSONDecodeError]. A file on which [json.load] fails in
    another way is not among them. *)
Theorem get_content_storage_error_iff (self : store) (content_id : string)
    (w : world) :
  (get_content self content_id w).1 = Raise StorageError
  <-> text_at (filepath self) w = None
      \/ (can_read (filepath self) w = true
          /\ exists c : content,
               text_at (filepath self) w = Some c
               /\ loads c = Raise JSONDecodeError).
Proof. apply get_content_storage_error_cases. Qed.

Lemma get_content_on_other_value (self : store) (content_id : string)
    (w : world) (v : json) :
  can_read (filepath self) w = true ->
  text_at (filepath self) w = Some (Doc v) ->
  is_object v = false ->
  (get_content self content_id w).1
  = match v with
    | JList l =>
        if existsb (is_str content_id) l then Raise TypeError
        else Raise ContentNotFoundError
    | JStr s =>
        if is_substring content_id s then Raise TypeError
        else Raise ContentNotFoundError
    | _ => Raise TypeError
    end.
Proof.
  unfold can_read. intros Hr Ht Hv.
  destruct (text_at_Some _ _ _ Ht) as (f & Hf & Hb). rewrite Hf in Hr.
  py_unfold. py_run.
  destruct v as [|b|z|lit|s|l|m]; try reflexivity.
  - cbn. destruct (is_substring content_id s); reflexivity.
  - cbn. destruct (existsb (is_str content_id) l); reflexivity.
  - discriminate Hv.
Qed.

(** X9. When the storage file parses to something that is not a mapping,
    [get_content] never returns and never raises [StorageError]: on a list
    it raises [ContentNotFoundError] unless the identifier is one of the
    elements, on a string unless the identifier occurs in it, and in every
    remaining case it raises [TypeError]. *)
Theorem get_content_not_a_mapping (self : store) (content_id : string)
    (w : world) (v : json) :
  can_read (filepath self) w = true ->
  text_at (filepath self) w = Some (Doc v) ->
  is_object v = false ->
  (get_content self content_id w).1
  = match v with
    | JList l =>
        if existsb (is_str content_id) l then Raise TypeError
        else Raise ContentNotFoundError
    | JStr s =>
        if is_substring content_id s then Raise TypeError
        else Raise ContentNotFoundError
    | _ => Raise TypeError
    end.
Proof. apply get_content_on_other_value. Qed.

Lemma get_content_not_a_mapping_witness :
  (get_content Sample.the_store "AAAAAAAAAAA" Sample.listed).1
  = Raise ContentNotFoundError.
Proof.
  apply (get_content_not_a_mapping Sample.the_store "AAAAAAAAAAA"
           Sample.listed (JList []));
    vm_compute; reflexivity.
Defined.

(** *** [save_content] *)

(** X10. Insert then look up, at the level of the store and for any key
    whatever (the store does not validate keys): after a returning
    [save_content], [get_content] with the same identifier returns the
    record just written. *)
Theorem save_content_then_get (self : store) (content_id : string)
    (chat_id message_id : Z) (now : string) (w w' : world) :
  save_content self content_id chat_id message_id now w = (Return tt, w') ->
  get_content self content_id w'
  = (Return (record_of chat_id message_id now),
     add_event (OpenRead (filepath self)) w').
Proof.
  intros H.
  destruct (save_content_returns _ _ _ _ _ _ _ H)
    as (f & m & Hf & Hr & Hw & Hb & Hd & E & _).
  apply (get_content_found self content_id _
           (set_body (Doc (JObj (<[content_id :=
                       record_of chat_id message_id now]> m))) f)
           (<[content_id := record_of chat_id message_id now]> m)).
  - rewrite E. apply lookup_insert_eq.
  - exact Hr.
  - reflexivity.
  - apply lookup_insert_eq.
Qed.

Lemma save_content_then_get_witness :
  exists w' : world,
    save_content Sample.the_store "" 7 8 "2024-01-02T00:00:00"
      (Sample.stored false) = (Return tt, w')
    /\ get_content Sample.the_store "" w'
       = (Return (record_of 7 8 "2024-01-02T00:00:00"),
          add_event (OpenRead default_path) w').
Proof.
  eexists. split; [vm_compute; reflexivity|].
  apply (save_content_then_get Sample.the_store "" 7 8 "2024-01-02T00:00:00"
           (Sample.stored false)).
  vm_compute. reflexivity.
Defined.

(** X11. A returning [save_content] does not change what [get_content]
    answers for any other identifier. *)
Theorem save_content_other_get (self : store) (content_id other : string)
    (chat_id message_id : Z) (now : string) (w w' : world) :
  save_content self content_id chat_id message_id now w = (Return tt, w') ->
  other ≠ content_id ->
  (get_content self other w').1 = (get_content self other w).1.
Proof.
  intros H Hne.
  destruct (save_content_returns _ _ _ _ _ _ _ H)
    as (f & m & Hf & Hr & Hw & Hb & Hd & E & _).
  set (m' := <[content_id := record_of chat_id message_id now]> m).
  assert (Hc : can_read (filepath self) w = true)
    by (unfold can_read; now rewrite Hf).
  assert (Hm : mapping_of (filepath self) w = Some m).
  { unfold mapping_of, text_at. rewrite Hf. cbn. now rewrite Hb. }
  rewrite (get_content_on_mapping self other w m Hc Hm).
  rewrite (get_content_on_mapping self other w' m').
  - cbn [fst]. unfold m'. now rewrite lookup_insert_ne by congruence.
  - unfold can_read. now rewrite E, lookup_insert_eq.
  - unfold mapping_of, text_at. now rewrite E, lookup_insert_eq.
Qed.

Lemma save_content_other_get_witness :
  exists w' : world,
    save_content Sample.the_store "BBBBBBBBBBB" 7 8 "2024-01-02T00:00:00"
      (Sample.stored false) = (Return tt, w')
    /\ "AAAAAAAAAAA" ≠ "BBBBBBBBBBB"
    /\ (get_content Sample.the_store "AAAAAAAAAAA" w').1
       = (get_content Sample.the_store "AAAAAAAAAAA" (Sample.stored false)).1.
Proof.
  eexists. split; [vm_compute; reflexivity|].
  split; [discriminate|].
  apply (save_content_other_get Sample.the_store "BBBBBBBBBBB" "AAAAAAAAAAA"
           7 8 "2024-01-02T00:00:00" (Sample.stored false));
    [vm_compute; reflexivity | discriminate].
Defined.

(** A store in working order takes the next record. *)
Lemma save_content_next (self : store) (content_id : string)
    (chat_id message_id : Z) (now : string) (w : world) (f : file)
    (m : gmap string json) :
  files w !! filepath self = Some f -> readable f = true ->
  writable f = true -> body f = Doc (JObj m) -> disk_full w = false ->
  exists w' : world,
    save_content self content_id chat_id message_id now w = (Return tt, w')
    /\ mapping_of (filepath self) w'
       = Some (<[content_id := record_of chat_id message_id now]> m).
Proof.
  intros Hf Hr Hw Hb Hd.
  pose proof (save_content_ok self content_id chat_id message_id now w f m
                Hf Hr Hw Hb Hd) as Hs.
  destruct (save_content self content_id chat_id message_id now w)
    as [[[]|e] w'] eqn:E; [|discriminate Hs].
  exists w'. split; [reflexivity|].
  destruct (save_content_returns _ _ _ _ _ _ _ E)
    as (f' & m' & Hf' & _ & _ & Hb' & _ & E' & _).
  assert (f' = f) as -> by congruence.
  assert (m' = m) as -> by congruence.
  unfold mapping_of, text_at. now rewrite E', lookup_insert_eq.
Qed.

(** X12. Saving again under an identifier that is already stored
    succeeds and replaces the record: there is no check for an existing
    key. After two returning calls in a row, the mapping is the original
    one with the second record at the identifier. *)
Theorem save_content_overwrites (self : store) (content_id : string)
    (chat_id message_id chat_id' message_id' : Z) (now now' : string)
    (w w1 : world) :
  save_content self content_id chat_id message_id now w = (Return tt, w1) ->
  exists (w2 : world) (m : gmap string json),
    save_content self content_id chat_id' message_id' now' w1
      = (Return tt, w2)
    /\ mapping_of (filepath self) w = Some m
    /\ mapping_of (filepath self) w2
       = Some (<[content_id := record_of chat_id' message_id' now']> m).
Proof.
  intros H.
  destruct (save_content_returns _ _ _ _ _ _ _ H)
    as (f & m & Hf & Hr & Hw & Hb & Hd & E & Hd1).
  destruct (save_content_next self content_id chat_id' message_id' now' w1
              (set_body (Doc (JObj (<[content_id :=
                          record_of chat_id message_id now]> m))) f)
              (<[content_id := record_of chat_id message_id now]> m))
    as (w2 & E2 & Hm2); try assumption; try reflexivity.
  { rewrite E. apply lookup_insert_eq. }
  exists w2, m. split; [exact E2|]. split.
  - unfold mapping_of, text_at. rewrite Hf. cbn. now rewrite Hb.
  - rewrite Hm2. now rewrite insert_insert_eq.
Qed.

Lemma save_content_overwrites_witness :
  exists (w1 w2 : world) (m : gmap string json),
    save_content Sample.the_store "AAAAAAAAAAA" 7 8 "2024-01-02T00:00:00"
      (Sample.stored false) = (Return tt, w1)
    /\ save_content Sample.the_store "AAAAAAAAAAA" 9 10 "2024-01-03T00:00:00"
         w1 = (Return tt, w2)
    /\ mapping_of default_path (Sample.stored false) = Some m
    /\ mapping_of default_path w2
       = Some (<["AAAAAAAAAAA" := record_of 9 10 "2024-01-03T00:00:00"]> m).
Proof.
  eexists.
  assert (H : save_content Sample.the_store "AAAAAAAAAAA" 7 8
                "2024-01-02T00:00:00" (Sample.stored false)
              = (Return tt, _)) by (vm_compute; reflexivity).
  destruct (save_content_overwrites Sample.the_store "AAAAAAAAAAA" 7 8 9 10
              "2024-01-02T00:00:00" "2024-01-03T00:00:00" _ _ H)
    as (w2 & m & H2 & Hm & Hm2).
  exists w2, m. exact (conj H (conj H2 (conj Hm Hm2))).
Defined.

(** X13. When the storage file parses to something that is not a mapping
    (a list, say), [save_content] raises [TypeError], which its handler
    for [IOError] and [JSONDecodeError] does not turn into [StorageError];
    nothing is written and the file is not opened for writing. *)
Theorem save_content_not_a_mapping (self : store) (content_id : string)
    (chat_id message_id : Z) (now : string) (w : world) (v : json) :
  can_read (filepath self) w = true ->
  text_at (filepath self) w = Some (Doc v) ->
  is_object v = false ->
  save_content self content_id chat_id message_id now w
  = (Raise TypeError, add_event (OpenRead (filepath self)) w).
Proof.
  unfold can_read. intros Hr Ht Hv.
  destruct (text_at_Some _ _ _ Ht) as (f & Hf & Hb). rewrite Hf in Hr.
  py_unfold. py_run.
  destruct v; try reflexivity. discriminate Hv.
Qed.

Lemma save_content_not_a_mapping_witness :
  save_content Sample.the_store "AAAAAAAAAAA" 7 8 "2024-01-02T00:00:00"
    Sample.listed
  = (Raise TypeError, add_event (OpenRead default_path) Sample.listed).
Proof.
  apply (save_content_not_a_mapping Sample.the_store "AAAAAAAAAAA" 7 8
           "2024-01-02T00:00:00" Sample.listed (JList []));
    vm_compute; reflexivity.
Defined.

(** X14. [save_content] never creates a file: a path with no file before
    the call has none after it, whatever the outcome. In particular a
    missing storage file stays missing. *)
Theorem save_content_never_creates (self : store) (content_id : string)
    (chat_id message_id : Z) (now : string) (w : world) (p : string) :
  files w !! p = None ->
  files (save_content self content_id chat_id message_id now w).2 !! p = None.
Proof.
  intros Hp.
  destruct (save_content_cases self content_id chat_id message_id now w)
    as [[_ E] | [(f & m & Hf & _ & _ & _ & _ & _ & E)
                 | (f & m & Hf & _ & _ & _ & _ & E)]].
  - now rewrite E.
  - rewrite E. rewrite lookup_insert_ne; [exact Hp | congruence].
  - rewrite E. cbn [snd files set_files add_log].
    rewrite lookup_insert_ne; [exact Hp | congruence].
Qed.

Lemma save_content_never_creates_witness :
  files Sample.fresh !! default_path = None
  /\ files (save_content Sample.the_store "AAAAAAAAAAA" 7 8
              "2024-01-02T00:00:00" Sample.fresh).2 !! default_path = None.
Proof.
  split; [vm_compute; reflexivity|].
  apply (save_content_never_creates Sample.the_store "AAAAAAAAAAA" 7 8
           "2024-01-02T00:00:00" Sample.fresh default_path).
  vm_compute. reflexivity.
Defined.

(** X15. [save_content] raises [StorageError] in exactly these
    situations: the storage file is missing; it may not be read;
    [json.load] rejects its text with [JSONDecodeError]; or it holds a
    mapping and either may not be written or the device takes no more
    data. A file on which [json.load] fails in another way is not among
    them. *)
Theorem save_content_storage_error_iff (self : store) (content_id : string)
    (chat_id message_id : Z) (now : string) (w : world) :
  (save_content self content_id chat_id message_id now w).1
    = Raise StorageError
  <-> text_at (filepath self) w = None
      \/ can_read (filepath self) w = false
      \/ (exists c : content,
            text_at (filepath self) w = Some c
            /\ loads c = Raise JSONDecodeError)
      \/ ((exists m, mapping_of (filepath self) w = Some m)
          /\ (can_write (filepath self) w = false \/ disk_full w = true)).
Proof.
  unfold can_write, can_read, mapping_of, text_at. py_unfold.
  cbn [fmap option_fmap option_map]. py_split;
    cbn [fmap option_fmap option_map]; py_run; try (py_value; py_split);
    (split;
     [ first [ discriminate
             | intros _; left; reflexivity
             | intros _; right; left; reflexivity
             | intros _; right; right; left; eexists; split; reflexivity
             | intros _; right; right; right;
               split; [eexists; reflexivity | first [now left | now right]] ]
     | first [ reflexivity
             | intros [H | [H | [(c & H2 & H3) | [[? H] [H' | H']]]]];
               first [ discriminate H | discriminate H'
                     | injection H2 as <-; discriminate H3 ] ] ]).
Qed.

(** *** Making the store object *)

(** X16. When [ContentStore(path)] returns, the storage file exists, can
    be read and parses; and making the object a second time changes no
    file: it returns after a single [open] for reading. *)
Theorem ContentStore_idempotent (path : string) (w w' : world) (self : store) :
  ContentStore path w = (Return self, w') ->
  can_read path w' = true
  /\ (exists v : json, text_at path w' = Some (Doc v))
  /\ ContentStore path w' = (Return self, add_event (OpenRead path) w').
Proof.
  intros H. apply ContentStore_returns in H as [-> H].
  destruct (ensure_returns {| filepath := path |} w w' H)
    as (f & v & Hf & Hr & Hb).
  cbn [filepath] in Hf.
  split; [unfold can_read; now rewrite Hf|].
  split; [exists v; unfold text_at; rewrite Hf; cbn; now rewrite Hb|].
  rewrite ContentStore_eq.
  now rewrite (ensure_parsable {| filepath := path |} w' f v Hf Hr Hb).
Qed.

Lemma ContentStore_idempotent_witness :
  exists (self : store) (w' : world),
    ContentStore default_path Sample.corrupt = (Return self, w')
    /\ can_read default_path w' = true
    /\ (exists v : json, text_at default_path w' = Some (Doc v))
    /\ ContentStore default_path w'
       = (Return self, add_event (OpenRead default_path) w').
Proof.
  eexists. eexists. split; [vm_compute; reflexivity|].
  apply (ContentStore_idempotent default_path Sample.corrupt).
  vm_compute. reflexivity.
Defined.

(** X17. Making the store object touches no file, of those that the
    program opens by path, other than the storage file and its backup,
    whatever the outcome. Besides these two it writes to the log only,
    which gets at most one record: that the storage file was created, or
    that it was found corrupted. *)
Theorem ContentStore_frame (path p : string) (w : world) :
  p ≠ path -> p ≠ path ++ ".backup" -> p ≠ log_path ->
  files (ContentStore path w).2 !! p = files w !! p
  /\ exists l : list (level * message),
       log (ContentStore path w).2 = (log w ++ l)%list
       /\ (l = [] \/ l = [(INFO, CreatedNewStorageFile path)]
           \/ l = [(ERROR, CorruptedJsonFile)]).
Proof.
  intros H1 H2 _. rewrite ContentStore_world. split.
  - destruct (ensure_frame {| filepath := path |} w) as (P & _).
    now apply P.
  - apply (ensure_log {| filepath := path |} w).
Qed.

Lemma ContentStore_frame_witness :
  files (ContentStore default_path Sample.with_notes).2 !! "notes.txt"
    = Some (File true true (Junk "to do"))
  /\ files (ContentStore default_path Sample.with_notes).2 !! "notes.txt"
     = files Sample.with_notes !! "notes.txt"
  /\ exists l : list (level * message),
       log (ContentStore default_path Sample.with_notes).2
       = (log Sample.with_notes ++ l)%list
       /\ (l = [] \/ l = [(INFO, CreatedNewStorageFile default_path)]
           \/ l = [(ERROR, CorruptedJsonFile)]).
Proof.
  split; [vm_compute; reflexivity|].
  apply (ContentStore_frame default_path "notes.txt" Sample.with_notes);
    discriminate.
Defined.

(** X18. A storage file that can be read and parses is accepted as it is,
    whatever it parses to: the object is made, no file is changed, nothing
    is backed up. That the value is a mapping is not checked here. *)
Theorem ContentStore_accepts_parsable (path : string) (w : world) (v : json) :
  can_read path w = true ->
  text_at path w = Some (Doc v) ->
  ContentStore path w
  = (Return {| filepath := path |}, add_event (OpenRead path) w).
Proof.
  unfold can_read. intros Hr Ht.
  destruct (text_at_Some _ _ _ Ht) as (f & Hf & Hb). rewrite Hf in Hr.
  rewrite ContentStore_eq.
  now rewrite (ensure_parsable {| filepath := path |} w f v Hf Hr Hb).
Qed.

Lemma ContentStore_accepts_parsable_witness :
  ContentStore default_path Sample.listed
  = (Return {| filepath := default_path |},
     add_event (OpenRead default_path) Sample.listed).
Proof.
  apply (ContentStore_accepts_parsable default_path Sample.listed (JList []));
    vm_compute; reflexivity.
Defined.

(** What [json.load] raises is never a [StorageError]. *)
Lemma loads_not_StorageError (c : content) : loads c ≠ Raise StorageError.
Proof. destruct c as [v|raw|[| |] raw|c]; discriminate. Qed.

(** X19. When making the store object raises, the exception is an
    [IOError] of one of its opens or writes ([FileNotFoundError],
    [PermissionError] or another [OSError]), or it is what [json.load]
    raised on the storage file, which could be read. It is never a
    [JSONDecodeError], which [_ensure_file_exists] handles, and never a
    [StorageError]. *)
Theorem ContentStore_raises (path : string) (w : world) (e : exn) :
  (ContentStore path w).1 = Raise e ->
  (is_IOError e = true
   \/ (can_read path w = true
       /\ exists c : content, text_at path w = Some c /\ loads c = Raise e))
  /\ e ≠ JSONDecodeError /\ e ≠ StorageError.
Proof.
  intros H. apply ContentStore_raise in H.
  destruct (ensure_outcome {| filepath := path |} w e H)
    as [Hio | (Hr & c & Hc & Hl & Hne)]; cbn [filepath] in *.
  - split; [now left|]. split; intros ->; discriminate Hio.
  - split; [right; split; [exact Hr | now exists c]|].
    split; [exact Hne|]. intros ->. now apply (loads_not_StorageError c).
Qed.

Lemma ContentStore_raises_witness :
  (ContentStore default_path Sample.garbled).1 = Raise UnicodeDecodeError
  /\ (is_IOError UnicodeDecodeError = true
      \/ (can_read default_path Sample.garbled = true
          /\ exists c : content,
               text_at default_path Sample.garbled = Some c
               /\ loads c = Raise UnicodeDecodeError))
  /\ UnicodeDecodeError ≠ JSONDecodeError
  /\ UnicodeDecodeError ≠ StorageError.
Proof.
  split; [vm_compute; reflexivity|].
  apply (ContentStore_raises default_path Sample.garbled UnicodeDecodeError).
  vm_compute. reflexivity.
Defined.

End StoreMore.

(* ===================================================================== *)
(** ** More on the handlers                                               *)
(* ===================================================================== *)

Module BotMore.
Import Py Store Bot Inv Shape StoreFacts BotFacts.
Import StoreMore.
#[local] Open Scope py_scope.

(** *** What [resolve] can raise *)

Lemma resolve_outcomes (content_id : string) (w : world) :
  (exists r, (resolve content_id w).1 = Return r)
  \/ exists e : exn,
       (resolve content_id w).1 = Raise e
       /\ (e = ContentNotFoundError \/ e = TypeError \/ is_IOError e = true
           \/ (can_read default_path w = true
               /\ exists c : content,
                    text_at default_path w = Some c /\ loads c = Raise e
                    /\ e ≠ JSONDecodeError)).
Proof.
  remember (resolve content_id w).1 as o eqn:Ho.
  unfold resolve in Ho. revert Ho. generalize default_path as path.
  intros path Ho.
  destruct (Ident.is_valid_content_id content_id); cbn [negb] in Ho;
    [|subst o; left; now eexists].
  unfold bind at 1 in Ho.
  destruct (ContentStore path w) as [[st|e] w1] eqn:E.
  - pose proof (ContentStore_returns _ _ _ _ E) as [-> E'].
    destruct (ensure_returns {| filepath := path |} w w1 E')
      as (f & v & Hf & Hr & Hb).
    cbn [filepath] in Hf.
    assert (Hc : can_read path w1 = true) by (unfold can_read; now rewrite Hf).
    assert (Ht : text_at path w1 = Some (Doc v)).
    { unfold text_at. rewrite Hf. cbn. now rewrite Hb. }
    unfold bind in Ho.
    destruct (is_object v) eqn:Hv.
    + destruct v; try discriminate Hv.
      rewrite (get_content_on_mapping {| filepath := path |} content_id w1 m)
        in Ho;
        [| exact Hc | unfold mapping_of; cbn [filepath]; now rewrite Ht].
      destruct (m !! content_id); cbn in Ho; subst o;
        [left; now eexists | right; eexists; split; [reflexivity | now left]].
    + pose proof (get_content_on_other_value {| filepath := path |} content_id
                    w1 v Hc Ht Hv) as G.
      destruct (get_content _ content_id w1) as [[x|e] w2];
        cbn [fst] in G; cbn in Ho.
      * destruct v; try discriminate G;
          [destruct (is_substring _ _) | destruct (existsb _ _)];
          discriminate G.
      * subst o. right. exists e. split; [reflexivity|].
        assert (He : e = TypeError \/ e = ContentNotFoundError).
        { destruct v as [|b|z|lit|s|l|m]; try discriminate Hv;
            try (left; congruence).
          - destruct (is_substring content_id s); [left | right]; congruence.
          - destruct (existsb (is_str content_id) l); [left | right];
              congruence. }
        destruct He as [-> | ->]; [right; now left | now left].
  - cbn [fst] in Ho. subst o. right. exists e. split; [reflexivity|].
    right; right.
    apply (ensure_outcome {| filepath := path |} w e).
    apply ContentStore_raise. now rewrite E.
Qed.

(** X20. When [resolve] raises, the exception is [ContentNotFoundError],
    or the [TypeError] of a storage file that parses to something else
    than a mapping, or an [IOError] of an [open] or a write made while the
    store object is set up, or what [json.load] raised on the storage file
    at that point. It is never [StorageError]: the store object made just
    before the lookup has left a file that can be read and parses, so
    neither of the two handlers of [get_content] that raise [StorageError]
    is reached. Nor is it [JSONDecodeError] or [KeyError]. *)
Theorem resolve_raises (content_id : string) (w : world) (e : exn) :
  (resolve content_id w).1 = Raise e ->
  (e = ContentNotFoundError \/ e = TypeError \/ is_IOError e = true
   \/ (can_read default_path w = true
       /\ exists c : content,
            text_at default_path w = Some c /\ loads c = Raise e))
  /\ e ≠ StorageError /\ e ≠ JSONDecodeError /\ e ≠ KeyError.
Proof.
  intros H.
  destruct (resolve_outcomes content_id w) as [[r G] | (e' & G & D)];
    rewrite G in H; [discriminate H|].
  assert (e' = e) as -> by congruence. clear G H.
  destruct D as [-> | [-> | [D | (Hr & c & Hc & Hl & Hne)]]].
  - split; [now left|]. repeat split; discriminate.
  - split; [right; now left|]. repeat split; discriminate.
  - split; [right; right; now left|].
    repeat split; intros ->; discriminate D.
  - split; [right; right; right; split; [exact Hr | now exists c]|].
    split; [intros ->; now apply (loads_not_StorageError c)|].
    split; [exact Hne|]. intros ->.
    destruct c as [v|raw|[| |] raw|c]; discriminate Hl.
Qed.

Lemma resolve_raises_witness :
  (resolve "AAAAAAAAAAAA" Sample.garbled).1 = Raise UnicodeDecodeError
  /\ (UnicodeDecodeError = ContentNotFoundError
      \/ UnicodeDecodeError = TypeError
      \/ is_IOError UnicodeDecodeError = true
      \/ (can_read default_path Sample.garbled = true
          /\ exists c : content,
               text_at default_path Sample.garbled = Some c
               /\ loads c = Raise UnicodeDecodeError))
  /\ UnicodeDecodeError ≠ StorageError
  /\ UnicodeDecodeError ≠ JSONDecodeError
  /\ UnicodeDecodeError ≠ KeyError.
Proof.
  split; [vm_compute; reflexivity|].
  apply (resolve_raises "AAAAAAAAAAAA" Sample.garbled UnicodeDecodeError).
  vm_compute. reflexivity.
Defined.

(** *** The handlers as a whole *)

Lemma message_handler_cases (private_channel_id : Z) (src : nat -> byte)
    (now : string) (chat_id message_id : Z) (w : world) :
  handle_private_group_message private_channel_id src now chat_id
    message_id w
  = if negb (chat_id =? private_channel_id)%Z then (Return NoReply, w)
    else match ingest src now chat_id message_id w with
         | (Return content_id, w') => (Return (LinkSaved content_id), w')
         | (Raise StorageError, w') => (Return SaveFailed, w')
         | (Raise e, w') =>
             (Return ErrorOccurred,
              add_log (ERROR, ErrorInPrivateGroupHandler e) w')
         end.
Proof.
  unfold handle_private_group_message.
  destruct (negb (chat_id =? private_channel_id)%Z); [reflexivity|].
  unfold try_except, bind at 1.
  destruct (ingest src now chat_id message_id w) as [[id|e] w1];
    [reflexivity | destruct e; reflexivity].
Qed.

Lemma start_handler_cases (chat_type : string) (content_id : string)
    (rest : list string) (w : world) :
  String.eqb chat_type "group" || String.eqb chat_type "supergroup"
    = false ->
  String.eqb chat_type "channel" = false ->
  handle_start_command chat_type (content_id :: rest) w
  = match resolve content_id w with
    | (Return InvalidFormat, w') => (Return InvalidLinkFormat, w')
    | (Return (Found (JObj m)), w') =>
        match m !! "chat_id", m !! "message_id" with
        | Some a, Some b => (Return (CopyMessage a b), w')
        | _, _ =>
            (Return ErrorOccurred,
             add_log (ERROR, ErrorInStartHandler KeyError) w')
        end
    | (Return (Found _), w') =>
        (Return ErrorOccurred,
         add_log (ERROR, ErrorInStartHandler TypeError) w')
    | (Raise ContentNotFoundError, w') =>
        (Return NotAvailable, add_log (WARNING, ContentNotFound content_id) w')
    | (Raise e, w') =>
        (Return ErrorOccurred, add_log (ERROR, ErrorInStartHandler e) w')
    end.
Proof.
  intros H1 H2. unfold handle_start_command. rewrite H1, H2.
  unfold try_except, bind at 1.
  destruct (resolve content_id w) as [[[|info]|e] w1];
    [reflexivity | | destruct e; reflexivity].
  unfold bind, getitem, ret, raise, logger.
  destruct info as [| | | | | |m]; try reflexivity.
  destruct (m !! "chat_id"); [|reflexivity].
  destruct (m !! "message_id"); reflexivity.
Qed.

(** X21. Every exception raised while an identifier is generated, a
    record saved or a record looked up is caught by the handler it is
    raised in: whatever the arguments and the state of the machine, the
    store-facing part of each handler ends with an answer. *)
Theorem handlers_never_raise (private_channel_id : Z) (src : nat -> byte)
    (now : string) (chat_id message_id : Z) (chat_type : string)
    (args : list string) (w : world) :
  (exists r, (handle_private_group_message private_channel_id src now
                chat_id message_id w).1 = Return r)
  /\ (exists r, (handle_start_command chat_type args w).1 = Return r).
Proof.
  split.
  - rewrite message_handler_cases.
    destruct (negb _); [now eexists|].
    destruct (ingest src now chat_id message_id w) as [[id|e] w1];
      [now eexists | destruct e; now eexists].
  - unfold handle_start_command.
    destruct (String.eqb chat_type "group" || String.eqb chat_type "supergroup");
      [now eexists|].
    destruct (String.eqb chat_type "channel"); [now eexists|].
    destruct args as [|content_id args]; [now eexists|].
    unfold try_except, bind at 1.
    destruct (resolve content_id w) as [[[|info]|e] w1];
      [now eexists | | destruct e; now eexists].
    unfold bind, getitem, ret, raise, logger.
    destruct info as [| | | | | |m]; try (now eexists).
    destruct (m !! "chat_id"); [|now eexists].
    destruct (m !! "message_id"); now eexists.
Qed.

Lemma link_saved_ingest (private_channel_id : Z) (src : nat -> byte)
    (now : string) (chat_id message_id : Z) (w w' : world)
    (content_id : string) :
  handle_private_group_message private_channel_id src now chat_id
    message_id w = (Return (LinkSaved content_id), w') ->
  ingest src now chat_id message_id w = (Return content_id, w').
Proof.
  rewrite message_handler_cases.
  destruct (negb _); [discriminate|].
  destruct (ingest src now chat_id message_id w) as [[id|e] w1];
    [|destruct e; discriminate].
  congruence.
Qed.

(** X22. A link is handed out only for a record that is stored: when
    [handle_private_group_message] answers with a link, the identifier in
    it is the one generated from the entropy, and the persisted mapping
    afterwards has, at that identifier, the record of the message. *)
Theorem link_only_when_saved (private_channel_id : Z) (src : nat -> byte)
    (now : string) (chat_id message_id : Z) (w w' : world)
    (content_id : string) :
  handle_private_group_message private_channel_id src now chat_id
    message_id w = (Return (LinkSaved content_id), w') ->
  content_id = Ident.generate_unique_id src
  /\ chat_id = private_channel_id
  /\ exists m : gmap string json,
       mapping_of default_path w' = Some m
       /\ m !! content_id = Some (record_of chat_id message_id now).
Proof.
  intros H.
  assert (Hc : chat_id = private_channel_id).
  { rewrite message_handler_cases in H.
    destruct (chat_id =? private_channel_id)%Z eqn:E; [now apply Z.eqb_eq|].
    discriminate H. }
  apply link_saved_ingest in H. apply ingest_returns in H as (-> & w1 & _ & H).
  revert H. generalize default_path as path. intros path H.
  destruct (save_content_returns _ _ _ _ _ _ _ H)
    as (f & m & Hf & Hr & Hw & Hb & Hd & E & _).
  split; [reflexivity|]. split; [exact Hc|].
  exists (<[Ident.generate_unique_id src := record_of chat_id message_id now]> m).
  split; [|apply lookup_insert_eq].
  unfold mapping_of, text_at. cbn [filepath] in E.
  now rewrite E, lookup_insert_eq.
Qed.

Lemma link_only_when_saved_witness :
  exists (content_id : string) (w' : world),
    handle_private_group_message 1001 Sample.zeros "2024-01-01T00:00:00"
      1001 42 Sample.fresh = (Return (LinkSaved content_id), w')
    /\ content_id = Ident.generate_unique_id Sample.zeros
    /\ 1001%Z = 1001%Z
    /\ exists m : gmap string json,
         mapping_of default_path w' = Some m
         /\ m !! content_id = Some (record_of 1001 42 "2024-01-01T00:00:00").
Proof.
  eexists. eexists. split; [vm_compute; reflexivity|].
  apply (link_only_when_saved 1001 Sample.zeros "2024-01-01T00:00:00" 1001 42
           Sample.fresh).
  vm_compute. reflexivity.
Defined.

(** X23. Round trip through the two handlers: after
    [handle_private_group_message] has answered with a link, [/start] with
    the identifier of that link, in a chat that is neither a group nor a
    channel, is answered by the copy of exactly that message from exactly
    that chat. *)
Theorem handlers_roundtrip (private_channel_id : Z) (src : nat -> byte)
    (now : string) (chat_id message_id : Z) (w w' : world)
    (content_id chat_type : string) (rest : list string) :
  handle_private_group_message private_channel_id src now chat_id
    message_id w = (Return (LinkSaved content_id), w') ->
  String.eqb chat_type "group" || String.eqb chat_type "supergroup"
    = false ->
  String.eqb chat_type "channel" = false ->
  (handle_start_command chat_type (content_id :: rest) w').1
  = Return (CopyMessage (JInt chat_id) (JInt message_id)).
Proof.
  intros H H1 H2. apply link_saved_ingest in H.
  destruct (roundtrip _ _ _ _ _ _ _ H) as [w'' R].
  rewrite (start_handler_cases chat_type content_id rest w' H1 H2), R.
  reflexivity.
Qed.

Lemma handlers_roundtrip_witness :
  exists (content_id : string) (w' : world),
    handle_private_group_message 1001 Sample.zeros "2024-01-01T00:00:00"
      1001 42 Sample.fresh = (Return (LinkSaved content_id), w')
    /\ (handle_start_command "private" [content_id] w').1
       = Return (CopyMessage (JInt 1001) (JInt 42)).
Proof.
  eexists. eexists. split; [vm_compute; reflexivity|].
  apply (handlers_roundtrip 1001 Sample.zeros "2024-01-01T00:00:00" 1001 42
           Sample.fresh);
    vm_compute; reflexivity.
Defined.

Lemma resolve_found (content_id : string) (w w' : world) (info : json) :
  resolve content_id w = (Return (Found info), w') ->
  Ident.is_valid_content_id content_id = true
  /\ exists m : gmap string json,
       mapping_of default_path w' = Some m /\ m !! content_id = Some info.
Proof.
  unfold resolve. generalize default_path as path. intros path.
  destruct (Ident.is_valid_content_id content_id); cbn [negb];
    [|discriminate].
  unfold bind at 1.
  destruct (ContentStore path w) as [[st|e] w1] eqn:E; [|discriminate].
  pose proof (ContentStore_returns _ _ _ _ E) as [-> _].
  unfold bind, ret.
  destruct (get_content _ content_id w1) as [[v|e] w2] eqn:G; [|discriminate].
  intros H. assert (v = info) as -> by congruence.
  assert (w2 = w') as -> by congruence.
  destruct (get_content_inversion _ _ _ _ _ G)
    as (f & m & Hf & _ & Hb & Hv & ->).
  split; [reflexivity|]. exists m. split; [|exact Hv].
  unfold mapping_of, text_at. cbn [files add_event filepath] in *.
  rewrite Hf. cbn. now rewrite Hb.
Qed.

(** X24. [handle_start_command] asks for a copy only of what is stored:
    when its answer is the copy of message [b] from chat [a], its first
    argument passed the validator and the persisted mapping holds, at that
    identifier, an object whose [chat_id] is [a] and whose [message_id] is
    [b]. *)
Theorem copy_only_what_is_stored (chat_type : string) (args : list string)
    (w w' : world) (a b : json) :
  handle_start_command chat_type args w = (Return (CopyMessage a b), w') ->
  exists (content_id : string) (rest : list string)
         (m rec : gmap string json),
    args = content_id :: rest
    /\ Ident.is_valid_content_id content_id = true
    /\ mapping_of default_path w' = Some m
    /\ m !! content_id = Some (JObj rec)
    /\ rec !! "chat_id" = Some a /\ rec !! "message_id" = Some b.
Proof.
  intros H.
  destruct (String.eqb chat_type "group" || String.eqb chat_type "supergroup")
    eqn:H1.
  { unfold handle_start_command in H. rewrite H1 in H. discriminate H. }
  destruct (String.eqb chat_type "channel") eqn:H2.
  { unfold handle_start_command in H. rewrite H1, H2 in H. discriminate H. }
  destruct args as [|content_id rest].
  { unfold handle_start_command in H. rewrite H1, H2 in H. discriminate H. }
  rewrite (start_handler_cases chat_type content_id rest w H1 H2) in H.
  destruct (resolve content_id w) as [[[|info]|e] w1] eqn:R;
    [discriminate H | | destruct e; discriminate H].
  destruct info as [| | | | | |rec]; try discriminate H.
  destruct (rec !! "chat_id") as [a'|] eqn:Ha; [|discriminate H].
  destruct (rec !! "message_id") as [b'|] eqn:Hb; [|discriminate H].
  assert (a' = a) as -> by congruence. assert (b' = b) as -> by congruence.
  assert (w1 = w') as -> by congruence.
  destruct (resolve_found _ _ _ _ R) as (Hv & m & Hm & Hi).
  exists content_id, rest, m, rec. now repeat split.
Qed.

Lemma copy_only_what_is_stored_witness :
  exists (a b : json) (w' : world),
    handle_start_command "private" ["AAAAAAAAAAA"] (Sample.stored false)
      = (Return (CopyMessage a b), w')
    /\ exists (content_id : string) (rest : list string)
              (m rec : gmap string json),
         ["AAAAAAAAAAA"] = content_id :: rest
         /\ Ident.is_valid_content_id content_id = true
         /\ mapping_of default_path w' = Some m
         /\ m !! content_id = Some (JObj rec)
         /\ rec !! "chat_id" = Some a /\ rec !! "message_id" = Some b.
Proof.
  eexists. eexists. eexists. split; [vm_compute; reflexivity|].
  apply (copy_only_what_is_stored "private" ["AAAAAAAAAAA"]
           (Sample.stored false)).
  vm_compute. reflexivity.
Defined.

(** X25. An identifier of fewer than 8 characters sent with [/start] in a
    chat that is neither a group nor a channel is answered as a malformed
    link, and the machine is left exactly as it was: no store object is
    made and no file is opened. *)
Theorem short_identifier_is_rejected (chat_type content_id : string)
    (rest : list string) (w : world) :
  (String.length content_id < 8)%nat ->
  String.eqb chat_type "group" || String.eqb chat_type "supergroup"
    = false ->
  String.eqb chat_type "channel" = false ->
  handle_start_command chat_type (content_id :: rest) w
  = (Return InvalidLinkFormat, w).
Proof.
  intros Hlen H1 H2.
  rewrite (start_handler_cases chat_type content_id rest w H1 H2).
  now rewrite (resolve_rejected content_id w
                 (IdentMore.short_is_invalid content_id Hlen)).
Qed.

Lemma short_identifier_is_rejected_witness :
  handle_start_command "private" ["short"] Sample.fresh
  = (Return InvalidLinkFormat, Sample.fresh).
Proof.
  apply (short_identifier_is_rejected "private" "short" [] Sample.fresh);
    [cbn; lia | reflexivity | reflexivity].
Defined.

(** *** Records are kept *)

(** X26. On a device that takes data, [handle_private_group_message]
    removes no key from a persisted mapping and changes no record stored
    under an identifier other than the one it generates: if the storage
    file held the mapping [m] before the call, then after it the file
    holds either [m] or [m] with the record of the message at the
    generated identifier. A record that was stored under that very
    identifier is replaced: there is no check for a collision. *)
Theorem message_handler_keeps_records (private_channel_id : Z)
    (src : nat -> byte) (now : string) (chat_id message_id : Z) (w : world)
    (m : gmap string json) :
  disk_full w = false ->
  mapping_of default_path w = Some m ->
  let w' := (handle_private_group_message private_channel_id src now
               chat_id message_id w).2 in
  exists m' : gmap string json,
    mapping_of default_path w' = Some m'
    /\ (m' = m
        \/ m' = <[Ident.generate_unique_id src :=
                    record_of chat_id message_id now]> m)
    /\ (forall k : string, k ≠ Ident.generate_unique_id src ->
          m' !! k = m !! k)
    /\ (forall k : string, is_Some (m !! k) -> is_Some (m' !! k)).
Proof.
  intros Hd Hm. cbv zeta.
  set (gen := Ident.generate_unique_id src).
  set (rec := record_of chat_id message_id now).
  assert (Hcases :
    mapping_of default_path
      (handle_private_group_message private_channel_id src now chat_id
         message_id w).2 = Some m
    \/ mapping_of default_path
         (handle_private_group_message private_channel_id src now chat_id
            message_id w).2 = Some (<[gen := rec]> m)).
  { destruct (handle_private_group_message_world private_channel_id src now
                chat_id message_id w) as [E | E];
      rewrite (mapping_of_files _ _ _ E); [now left|].
    remember (ingest src now chat_id message_id w).2 as w' eqn:Hw'.
    unfold ingest in Hw'. cbv zeta in Hw'. fold gen in Hw'.
    clearbody gen. revert Hm Hw'.
    generalize default_path as path. intros path Hm Hw'.
    destruct (ContentStore_keeps_mapping path w m Hm) as [Hfs Hd1].
    unfold bind at 1 in Hw'.
    destruct (ContentStore path w) as [[st|e] w1] eqn:E';
      cbn [snd] in Hfs, Hd1.
    2:{ left. subst w'. cbn [snd]. now rewrite (mapping_of_files path w w1 Hfs). }
    pose proof (ContentStore_returns _ _ _ _ E') as [-> _].
    assert (Hm1 : mapping_of path w1 = Some m)
      by now rewrite (mapping_of_files path w w1 Hfs).
    unfold bind, ret in Hw'.
    destruct (save_content_cases {| filepath := path |} gen chat_id
                message_id now w1)
      as [[_ G] | [(f & m0 & _ & _ & _ & _ & Hd2 & _)
                  | (f & m0 & Hf & _ & _ & Hb & _ & G)]].
    - left.
      destruct (save_content _ _ _ _ _ w1) as [[[]|e] w2]; cbn [snd] in *;
        subst w'; now rewrite (mapping_of_files path w1 w2 G).
    - congruence.
    - right. rewrite G in Hw'. cbn [snd] in Hw'. subst w'.
      assert (m0 = m) as ->.
      { unfold mapping_of, text_at in Hm1. cbn [filepath] in Hf.
        rewrite Hf in Hm1. cbn in Hm1. rewrite Hb in Hm1. congruence. }
      unfold mapping_of, text_at. cbn [files set_files add_log filepath].
      now rewrite lookup_insert_eq. }
  destruct Hcases as [E | E].
  - exists m. split; [exact E|]. split; [now left|]. split; [reflexivity|].
    intros k Hk. exact Hk.
  - exists (<[gen := rec]> m). split; [exact E|]. split; [now right|]. split.
    + intros k Hk. now apply lookup_insert_ne.
    + intros k Hk. destruct (decide (gen = k)) as [<- | Hne].
      * rewrite lookup_insert_eq. now eexists.
      * now rewrite lookup_insert_ne.
Qed.

Lemma message_handler_keeps_records_witness :
  let w' := (handle_private_group_message 1001 Sample.ones
               "2024-01-02T00:00:00" 1001 43 (Sample.stored false)).2 in
  Ident.generate_unique_id Sample.ones ≠ "AAAAAAAAAAA"
  /\ exists m' : gmap string json,
       mapping_of default_path w' = Some m'
       /\ (m' = Sample.one_record
           \/ m' = <[Ident.generate_unique_id Sample.ones :=
                       record_of 1001 43 "2024-01-02T00:00:00"]>
                     Sample.one_record)
       /\ (forall k : string, k ≠ Ident.generate_unique_id Sample.ones ->
             m' !! k = Sample.one_record !! k)
       /\ (forall k : string, is_Some (Sample.one_record !! k) ->
             is_Some (m' !! k)).
Proof.
  cbv zeta. split; [vm_compute; discriminate|].
  apply (message_handler_keeps_records 1001 Sample.ones
           "2024-01-02T00:00:00" 1001 43 (Sample.stored false)
           Sample.one_record);
    vm_compute; reflexivity.
Defined.

(** X27. [handle_start_command] never changes a persisted mapping: if the
    storage file held the mapping [m] before the call, it holds [m] after
    it, whatever the chat, the arguments and the answer. *)
Theorem start_handler_keeps_mapping (chat_type : string) (args : list string)
    (w : world) (m : gmap string json) :
  mapping_of default_path w = Some m ->
  mapping_of default_path (handle_start_command chat_type args w).2 = Some m.
Proof.
  intros Hm.
  destruct (handle_start_command_world chat_type args w)
    as [E | [content_id E]]; rewrite (mapping_of_files _ _ _ E);
    [exact Hm|].
  unfold resolve. revert Hm. generalize default_path as path. intros path Hm.
  destruct (Ident.is_valid_content_id content_id); cbn [negb]; [|exact Hm].
  destruct (ContentStore_keeps_mapping path w m Hm) as [Hfs _].
  unfold bind at 1.
  destruct (ContentStore path w) as [[st|e] w1]; cbn [snd] in Hfs.
  2:{ cbn [snd]. now rewrite (mapping_of_files path w w1 Hfs). }
  unfold bind, ret.
  pose proof (get_content_files st content_id w1) as G.
  destruct (get_content st content_id w1) as [[v|e] w2]; cbn [snd] in *;
    rewrite (mapping_of_files path w1 w2 G);
    now rewrite (mapping_of_files path w w1 Hfs).
Qed.

Lemma start_handler_keeps_mapping_witness :
  mapping_of default_path
    (handle_start_command "private" ["AAAAAAAAAAA"] (Sample.stored false)).2
  = Some Sample.one_record.
Proof.
  apply (start_handler_keeps_mapping "private" ["AAAAAAAAAAA"]
           (Sample.stored false) Sample.one_record).
  vm_compute. reflexivity.
Defined.

End BotMore.

